(** * include_vars_dir: recursive loading and merging of variable files

    A shallow embedding of [action_plugins/include_vars_dir.py]
    (class [ActionModule]) and the properties of its three stages:
    argument resolution ([_set_args]), the depth-bounded directory
    walker ([_traverse_dir_depth]) and the file merger ([_load_files],
    [_ignore_file]), composed by [run].

    Python is modelled with its version 3 semantics.  A [string] is
    the sequence of the bytes of the UTF-8 encoding of a Python [str];
    the order of the bytes is then the order of the code points.
    Exceptions are an error monad; the filesystem and the loader of the host are read-only
    oracles, and every filesystem access of the plugin is recorded in a
    log that the computation threads along. *)

From stdpp Require Import gmap strings list fin_maps sorting pretty.
From Stdlib Require Import ZArith Ascii Sorted Permutation.
From Stdlib Require String.

Local Open Scope Z_scope.
Set Warnings "-register-all".

(** ** Python values *)

(** The values that YAML files and task arguments hold.  Mappings are
    keyed by strings, as variable files and task arguments are. *)
Inductive PyValue :=
| PyNone
| PyBool (b : bool)
| PyInt (z : Z)
| PyStr (s : string)
| PyList (l : list PyValue)
| PyDict (d : gmap string PyValue).

(** Truth value of an object, as [if x:] tests it. *)
Definition truthy (v : PyValue) : bool :=
  match v with
  | PyNone => false
  | PyBool b => b
  | PyInt z => negb (z =? 0)
  | PyStr s => negb (String.eqb s "")
  | PyList l => match l with [] => false | _ => true end
  | PyDict d => negb (bool_decide (d = ∅))
  end.

(** [v == s] for a string literal [s]. *)
Definition py_eq_str (v : PyValue) (s : string) : bool :=
  match v with
  | PyStr s' => String.eqb s' s
  | _ => false
  end.

(** [isinstance(v, dict)] *)
Definition is_dict (v : PyValue) : bool :=
  match v with PyDict _ => true | _ => false end.

(** ** Exceptions *)

Inductive exn :=
| AnsibleError (msg : string)
| ReError (pattern : string)
| AttributeError (attr : string)
| TypeError (what : string).

Inductive res (A : Type) :=
| Ok (a : A)
| Raise (e : exn).
Arguments Ok {A} a.
Arguments Raise {A} e.

Definition res_bind {A B} (m : res A) (k : A -> res B) : res B :=
  match m with
  | Ok a => k a
  | Raise e => Raise e
  end.

Declare Scope res_scope.
Delimit Scope res_scope with res.
Notation "'try!' x := m 'in' k" := (res_bind m (fun x => k))
  (at level 10, x pattern, m at level 100, k at level 200) : res_scope.

(** ** Filesystem accesses *)

Inductive FsOp :=
| OpExists (p : PyValue)
| OpWalk (p : PyValue)
| OpRead (p : string).

(** A computation that may raise and that appends the filesystem
    accesses it makes to the log. *)
Definition M (A : Type) : Type := list FsOp -> res A * list FsOp.

Definition ret {A} (a : A) : M A := fun log => (Ok a, log).
Definition raise {A} (e : exn) : M A := fun log => (Raise e, log).
Definition lift {A} (r : res A) : M A := fun log => (r, log).
Definition access {A} (op : FsOp) (r : res A) : M A :=
  fun log => (r, log ++ [op]).
Definition bind {A B} (m : M A) (k : A -> M B) : M B :=
  fun log =>
    match m log with
    | (Ok a, log') => k a log'
    | (Raise e, log') => (Raise e, log')
    end.

Declare Scope m_scope.
Delimit Scope m_scope with M.
Notation "'do!' x := m 'in' k" := (bind m (fun x => k))
  (at level 10, x pattern, m at level 100, k at level 200) : m_scope.

(** ** The host: the Python library and the Ansible objects the plugin
    calls *)

Class Host := {
  (** [re.compile(p)] succeeds *)
  re_valid : string -> bool;
  (** [re.search(p, s)] finds a match, for a pattern that compiles *)
  re_search : string -> string -> bool;
  (** ['{0}'.format(v)] *)
  py_format : PyValue -> string;
  py_format_str : forall s, py_format (PyStr s) = s;
  (** [os.path.exists] *)
  fs_exists : PyValue -> res bool;
  (** [list(os.walk(top))]: (root, directories, files) triples *)
  fs_walk : PyValue -> res (list (string * list string * list string));
  (** [self._loader._get_file_contents]: raw content and the
      safe-to-show flag *)
  get_file_contents : string -> res (string * bool);
  (** [self._loader.load] *)
  loader_load : string -> bool -> res PyValue;
  (** [list(d)]: the keys of a dict in the order of their insertion,
      which the map does not record *)
  dict_keys : gmap string PyValue -> list string;
  dict_keys_perm : forall d, dict_keys d ≡ₚ (map_to_list d).*1
}.

(** ** The task and the plugin instance *)

Record Role := { _role_path : string }.

(** [args] is the argument dict of the task, in iteration order. *)
Record Task := {
  args : list (string * PyValue);
  _ds : PyValue;
  _role : option Role
}.

(** The attributes of the [ActionModule] instance; [None] is an
    attribute that has not been assigned yet. *)
Record ActionModule := {
  show_content : bool;
  return_results_as_name : option PyValue;
  source_dir : option PyValue;
  depth : option PyValue;
  files_matching : option PyValue;
  matcher : option (option string);
  ignore_files : option PyValue
}.

(** Reading an attribute. *)
Definition attr {A} (name : string) (o : option A) : res A :=
  match o with
  | Some a => Ok a
  | None => Raise (AttributeError name)
  end.

(** [d.get(k, default)] on the argument dict. *)
Definition args_get (k : string) (default : PyValue)
    (a : list (string * PyValue)) : PyValue :=
  match find (fun kv => String.eqb kv.1 k) a with
  | Some kv => kv.2
  | None => default
  end.

(** ** Library functions that are modelled in full *)

(** The number of bytes of the whitespace character at the head of
    [s], 0 when [s] does not start with one.  Whitespace is what
    [str.isspace] accepts: the ASCII characters 9 to 13 and 28 to 32,
    and U+0085, U+00A0, U+1680, U+2000 to U+200A, U+2028, U+2029, U+202F,
    U+205F and U+3000, here in their UTF-8 encoding. *)
Definition space_width (s : string) : nat :=
  match nat_of_ascii <$> String.list_ascii_of_string s with
  | b0 :: rest =>
      if ((9 <=? b0) && (b0 <=? 13) || (28 <=? b0) && (b0 <=? 32))%nat
      then 1%nat
      else
        match rest with
        | b1 :: rest' =>
            if ((b0 =? 194) && ((b1 =? 133) || (b1 =? 160)))%nat then 2%nat
            else
              match rest' with
              | b2 :: _ =>
                  if ((b0 =? 225) && (b1 =? 154) && (b2 =? 128) ||
                      (b0 =? 226) && (b1 =? 128) &&
                        ((128 <=? b2) && (b2 <=? 138) ||
                         (b2 =? 168) || (b2 =? 169) || (b2 =? 175)) ||
                      (b0 =? 226) && (b1 =? 129) && (b2 =? 159) ||
                      (b0 =? 227) && (b1 =? 128) && (b2 =? 128))%nat
                  then 3%nat
                  else 0%nat
              | [] => 0%nat
              end
        | [] => 0%nat
        end
  | [] => 0%nat
  end.

(** [s.split()]: the maximal runs of characters that are not
    whitespace; [word] is the run being read and [skip] the number of
    bytes left of the whitespace character being passed. *)
Fixpoint py_split_aux (skip : nat) (word : string) (s : string)
    : list string :=
  match s with
  | EmptyString => if String.eqb word "" then [] else [word]
  | String a s' =>
      match skip with
      | S n => py_split_aux n word s'
      | O =>
          match space_width s with
          | S n =>
              if String.eqb word "" then py_split_aux n "" s'
              else word :: py_split_aux n "" s'
          | O => py_split_aux O (word +:+ String a "") s'
          end
      end
  end.

Definition py_split (s : string) : list string := py_split_aux 0 "" s.

(** The characters of a string: a byte that continues a UTF-8
    sequence belongs to the character before it; [cur] is the
    character being read. *)
Fixpoint utf8_chars_aux (cur : string) (s : string) : list string :=
  match s with
  | EmptyString => if String.eqb cur "" then [] else [cur]
  | String a s' =>
      let n := nat_of_ascii a in
      if (128 <=? n)%nat && (n <=? 191)%nat && negb (String.eqb cur "") then
        utf8_chars_aux (cur +:+ String a "") s'
      else if String.eqb cur "" then utf8_chars_aux (String a "") s'
      else cur :: utf8_chars_aux (String a "") s'
  end.

Definition utf8_chars (s : string) : list string := utf8_chars_aux "" s.

Definition ends_with_sep (s : string) : bool :=
  match String.get (String.length s - 1) s with
  | Some a => Ascii.eqb a "/"
  | None => false
  end.

(** One step of [posixpath.join]. *)
Definition join2 (a b : string) : string :=
  if String.prefix "/" b then b
  else if String.eqb a "" || ends_with_sep a then a +:+ b
  else a +:+ "/" +:+ b.

(** [os.path.join(a, *p)] on strings. *)
Definition path_join (a : string) (p : list string) : string :=
  fold_left join2 p a.

(** [list.sort(key=...)]: a stable sort by the order of strings. *)
Section sort.
Context {A : Type} (key : A -> string).

Fixpoint insert_by (x : A) (l : list A) : list A :=
  match l with
  | [] => [x]
  | y :: l' =>
      if String.leb (key x) (key y) then x :: y :: l'
      else y :: insert_by x l'
  end.

Fixpoint sort_by (l : list A) : list A :=
  match l with
  | [] => []
  | x :: l' => insert_by x (sort_by l')
  end.

End sort.

Definition sort_strings (l : list string) : list string := sort_by id l.

(** ** Argument resolution *)

Definition IGNORE_FILES : list string := [".*.md"; ".*.py"; ".*.pyc"].

Definition VALID_ARGUMENTS : list string :=
  ["name"; "dir"; "depth"; "files_matching"; "ignore_files"].

(** The key under which [name] nests the results: lists and dicts are
    not hashable. *)
Definition hashable (v : PyValue) : bool :=
  match v with
  | PyList _ | PyDict _ => false
  | _ => true
  end.

(** The value of [ansible_facts]: the merged mapping, or the dict
    [{name: merged}] of the [name] option. *)
Inductive Facts :=
| Flat (merged : gmap string PyValue)
| Scoped (name : PyValue) (merged : gmap string PyValue).

(** The result dict, by the keys the plugin assigns; [None] is an
    absent key. *)
Record Result := {
  failed : option bool;
  message : option string;
  ansible_facts : option Facts;
  _ansible_no_log : option bool
}.

Definition empty_result : Result :=
  {| failed := None; message := None; ansible_facts := None;
     _ansible_no_log := None |}.

(** [result['failed'] = b; result['message'] = msg] *)
Definition set_failure (result : Result) (b : bool) (msg : string)
    : Result :=
  {| failed := Some b; message := Some msg;
     ansible_facts := ansible_facts result;
     _ansible_no_log := _ansible_no_log result |}.

(** [result['ansible_facts'] = facts; result['_ansible_no_log'] = b] *)
Definition set_facts (result : Result) (facts : Facts) (b : bool)
    : Result :=
  {| failed := failed result; message := message result;
     ansible_facts := Some facts; _ansible_no_log := Some b |}.

(** The dict [{'failed': True, 'message': msg}]. *)
Definition failure (msg : string) : Result :=
  set_failure empty_result true msg.

Definition no_directory_msg : string :=
  "No directory was found for the included vars. " +:+
  "Use `- include_vars_dir: <dirname>` or the `dir:` option " +:+
  "to specify the vars dirname.".

Section plugin.
Context `{host : Host}.

Local Open Scope res_scope.

(** [_set_args]: the value it returns ([None], or a failure dict) and
    the instance with the attributes assigned so far.  [extend] changes
    the list of the task arguments in place; what a later invocation
    would see of it is not modelled. *)
Definition _set_args (task : Task) (self : ActionModule)
    : res (option Result * ActionModule) :=
  match find (fun kv => negb (bool_decide (kv.1 ∈ VALID_ARGUMENTS)))
             (args task) with
  | Some (arg, _) =>
      Ok (Some (failure
                  (py_format (PyStr arg) +:+ " is not a valid option in debug")),
          self)
  | None =>
      let name := args_get "name" PyNone (args task) in
      let dir := args_get "dir" PyNone (args task) in
      let dep := args_get "depth" (PyInt 0) (args task) in
      let fm := args_get "files_matching" PyNone (args task) in
      try! m :=
        (if truthy fm then
           if re_valid (py_format fm) then Ok (Some (py_format fm))
           else Raise (ReError (py_format fm))
         else Ok None) in
      let ign := args_get "ignore_files" (PyList []) (args task) in
      let ign1 :=
        match ign with
        | PyStr s => PyList (PyStr <$> py_split s)
        | _ => ign
        end in
      let assigned ign' :=
        {| show_content := show_content self;
           return_results_as_name := Some name;
           source_dir := Some dir;
           depth := Some dep;
           files_matching := Some fm;
           matcher := Some m;
           ignore_files := Some ign' |} in
      match ign with
      | PyDict _ =>
          Ok (Some (failure (py_format ign +:+ " must be a list")),
              assigned ign)
      | _ =>
          try! ign2 :=
            match ign1 with
            | PyList l => Ok (PyList (l ++ (PyStr <$> IGNORE_FILES)))
            | _ => Raise (AttributeError "extend")
            end in
          if negb (truthy dir) then
            Raise (AnsibleError (no_directory_msg +:+ py_format (_ds task)))
          else Ok (None, assigned ign2)
      end
  end.

(** ** The directory walker *)

(** [current_depth <= self.depth or self.depth == 0] *)
Definition within_depth (current_depth : Z) (d : PyValue) : res bool :=
  match d with
  | PyInt z => Ok ((current_depth <=? z) || (z =? 0))
  | PyBool b =>
      Ok ((current_depth <=? Z.b2z b) || (Z.b2z b =? 0))
  | _ => Raise (TypeError "<=")
  end.

(** The loop of [_traverse_dir_depth] over the sorted walk; the result
    is the sequence of the pairs it yields. *)
Fixpoint traverse_loop (d : PyValue) (current_depth : Z)
    (sorted_walk : list (string * list string * list string))
    : res (list (string * list string)) :=
  match sorted_walk with
  | [] => Ok []
  | (current_root, current_dir, current_files) :: rest =>
      let current_depth := current_depth + 1 in
      try! ok := within_depth current_depth d in
      if ok : bool then
        try! more := traverse_loop d current_depth rest in
        Ok ((current_root, sort_strings current_files) :: more)
      else Ok []
  end.

Definition _traverse_dir_depth (self : ActionModule)
    : M (list (string * list string)) :=
  (do! top := lift (attr "source_dir" (source_dir self)) in
   do! walked := access (OpWalk top) (fs_walk top) in
   do! d := lift (attr "depth" (depth self)) in
   lift (traverse_loop d 0 (sort_by (fun x => x.1.1) walked)))%M.

(** ** The file merger *)

(** The sequence a [for] loop over [v] runs through; a dict gives its
    keys in the order of their insertion, a string its characters. *)
Definition py_iter (v : PyValue) : res (list PyValue) :=
  match v with
  | PyList l => Ok l
  | PyDict d => Ok (PyStr <$> dict_keys d)
  | PyStr s => Ok (PyStr <$> utf8_chars s)
  | _ => Raise (TypeError "iter")
  end.

(** The loop of [_ignore_file]: [re.search] raises on a pattern that
    does not compile, which the handler turns into an [AnsibleError]. *)
Fixpoint ignore_loop (filename : string) (patterns : list PyValue)
    : res bool :=
  match patterns with
  | [] => Ok false
  | file_type :: rest =>
      let p := py_format file_type +:+ "$" in
      if re_valid p then
        if re_search p filename then Ok true
        else ignore_loop filename rest
      else
        Raise (AnsibleError
                 ("Invalid regular expression: " +:+ py_format file_type))
  end.

Definition _ignore_file (self : ActionModule) (filename : string)
    : res bool :=
  try! ign := attr "ignore_files" (ignore_files self) in
  try! patterns := py_iter ign in
  ignore_loop filename patterns.

Definition set_show_content (self : ActionModule) (b : bool)
    : ActionModule :=
  {| show_content := b;
     return_results_as_name := return_results_as_name self;
     source_dir := source_dir self;
     depth := depth self;
     files_matching := files_matching self;
     matcher := matcher self;
     ignore_files := ignore_files self |}.

Definition set_source_dir (self : ActionModule) (v : PyValue)
    : ActionModule :=
  {| show_content := show_content self;
     return_results_as_name := return_results_as_name self;
     source_dir := Some v;
     depth := depth self;
     files_matching := files_matching self;
     matcher := matcher self;
     ignore_files := ignore_files self |}.

(** The local variables of [_load_files] that live across the
    iterations, and the instance. *)
Record LoadState := {
  ls_results : gmap string PyValue;
  ls_failed : bool;
  ls_err_msg : string;
  ls_self : ActionModule
}.

Local Open Scope m_scope.

(** [stop_iter] after the [files_matching] test. *)
Definition not_matching (self : ActionModule) (filename : string)
    : res bool :=
  try! fm := attr "files_matching" (files_matching self) in
  if truthy fm then
    try! m := attr "matcher" (matcher self) in
    match m with
    | Some p => Ok (negb (re_search p filename))
    | None => Raise (AttributeError "search")
    end
  else Ok false.

(** The end of the loop body of [_load_files], from the loaded [data]
    and its safe-to-show flag on. *)
Definition absorb (st : LoadState) (filepath : string) (data : PyValue)
    (show : bool) : LoadState :=
  let self := if show then ls_self st
              else set_show_content (ls_self st) false in
  let data := match data with PyNone => PyDict ∅ | _ => data end in
  match data with
  | PyDict d =>
      {| ls_results := d ∪ ls_results st;
         ls_failed := ls_failed st;
         ls_err_msg := ls_err_msg st;
         ls_self := self |}
  | _ =>
      {| ls_results := ls_results st;
         ls_failed := true;
         ls_err_msg := py_format (PyStr filepath) +:+
                       " must be stored as a dictionary/hash";
         ls_self := self |}
  end.

(** The part of the loop body of [_load_files] that loads [filepath]
    and merges it. *)
Definition load_one (filepath : string) (st : LoadState) : M LoadState :=
  do! (raw, show) := access (OpRead filepath) (get_file_contents filepath) in
  do! data := lift (loader_load raw show) in
  ret (absorb st filepath data show).

(** The loop of [_load_files]. *)
Fixpoint load_loop (task : Task) (root_dir : string)
    (var_files : list string) (st : LoadState) : M LoadState :=
  match var_files with
  | [] => ret st
  | filename :: rest =>
      if bool_decide (is_Some (_role task)) && String.eqb filename "main.yml"
      then load_loop task root_dir rest st
      else
        let filepath := path_join root_dir [filename] in
        do! stop_iter := lift (not_matching (ls_self st) filename) in
        if negb stop_iter && negb (ls_failed st) then
          do! there := access (OpExists (PyStr filepath))
                              (fs_exists (PyStr filepath)) in
          do! load :=
            (if there : bool then
               do! ign := lift (_ignore_file (ls_self st) filename) in
               ret (negb ign)
             else ret false) in
          do! st' := (if load : bool then load_one filepath st else ret st) in
          load_loop task root_dir rest st'
        else load_loop task root_dir rest st
  end.

(** [_load_files]: the tuple it returns, and the instance. *)
Definition _load_files (task : Task) (self : ActionModule)
    (root_dir : string) (var_files : list string) : M LoadState :=
  load_loop task root_dir var_files
    {| ls_results := ∅; ls_failed := false; ls_err_msg := "";
       ls_self := self |}.

(** ** The entry point *)

(** [os.path.join] raises on a component that is not a path. *)
Definition py_path_join (a : string) (p : list PyValue) : res string :=
  try! p' := (fix go (p : list PyValue) : res (list string) :=
                match p with
                | [] => Ok []
                | PyStr s :: p' =>
                    (try! r := go p' in Ok (s :: r))%res
                | _ => Raise (TypeError "join")
                end) p in
  Ok (path_join a p').

(** The locals of [run] that live across the loop over the walk. *)
Record RunState := {
  rs_results : gmap string PyValue;
  rs_result : Result;
  rs_self : ActionModule
}.

(** The loop of [run] over the directories that the walker yields. *)
Fixpoint run_loop (task : Task) (entries : list (string * list string))
    (st : RunState) : M RunState :=
  match entries with
  | [] => ret st
  | (root_dir, filenames) :: rest =>
      do! ls := _load_files task (rs_self st) root_dir filenames in
      if negb (ls_failed ls) then
        run_loop task rest
          {| rs_results := ls_results ls ∪ rs_results st;
             rs_result := rs_result st;
             rs_self := ls_self ls |}
      else
        ret {| rs_results := rs_results st;
               rs_result :=
                 set_failure (rs_result st) (ls_failed ls) (ls_err_msg ls);
               rs_self := ls_self ls |}
  end.

(** The instance when [run] has assigned [show_content] and has not
    called [_set_args] yet. *)
Definition init_self : ActionModule :=
  {| show_content := true; return_results_as_name := None;
     source_dir := None; depth := None; files_matching := None;
     matcher := None; ignore_files := None |}.

(** Inside a role, [run] takes [dir] in the [vars] directory of the
    role. *)
Definition role_source_dir (task : Task) (self : ActionModule)
    : res ActionModule :=
  (match _role task with
   | Some role =>
       try! dir := attr "source_dir" (source_dir self) in
       if py_eq_str dir "vars" then
         try! joined := py_path_join (_role_path role) [dir] in
         Ok (set_source_dir self (PyStr joined))
       else
         try! joined := py_path_join (_role_path role) [PyStr "vars"; dir] in
         Ok (set_source_dir self (PyStr joined))
   | None => Ok self
   end)%res.

(** [result['ansible_facts']]: the results, under [name] when it is
    given. *)
Definition finalize (name : PyValue) (results : gmap string PyValue)
    : res Facts :=
  if truthy name then
    if hashable name then Ok (Scoped name results)
    else Raise (TypeError "unhashable")
  else Ok (Flat results).

(** [run].  The dict that [ActionBase.run] returns is taken to be
    empty; the value that [_set_args] returns is dropped. *)
Definition run (task : Task) : M Result :=
  do! (_, self) := lift (_set_args task init_self) in
  let result := empty_result in
  let results : gmap string PyValue := ∅ in
  do! self := lift (role_source_dir task self) in
  do! dir := lift (attr "source_dir" (source_dir self)) in
  do! there := access (OpExists dir) (fs_exists dir) in
  if there : bool then
    do! entries := _traverse_dir_depth self in
    do! st := run_loop task entries
                {| rs_results := results; rs_result := result;
                   rs_self := self |} in
    do! name := lift (attr "return_results_as_name"
                        (return_results_as_name (rs_self st))) in
    do! facts := lift (finalize name (rs_results st)) in
    ret (set_facts (rs_result st) facts (show_content (rs_self st)))
  else
    ret (set_failure result true
           (py_format dir +:+ " directory does not exist")).

End plugin.

(** The instance that [_set_args] leaves for a task. *)
Definition self_of `{host : Host} (task : Task) : ActionModule :=
  match _set_args task init_self with
  | Ok (_, self) => self
  | Raise _ => init_self
  end.

(** ** A regular expression engine for a fragment of [re]

    The fragment: ordinary ASCII characters, [.], [*], [|], groups
    [( )], the anchors [^] and [$], and a backslash before a
    punctuation character.  [compile] tells apart the patterns that
    [re.compile] refuses from the patterns outside the fragment, on
    which it makes no statement. *)
Module MiniRe.

Inductive regex :=
| Eps
| Chr (a : ascii)
| Dot
| Bol
| Eol
| Cat (r1 r2 : regex)
| Alt (r1 r2 : regex)
| Star (r : regex).

Inductive parsed (A : Type) :=
| Parsed (a : A)
| Invalid
| Unsupported.
Arguments Parsed {A} a.
Arguments Invalid {A}.
Arguments Unsupported {A}.

Definition newline : ascii := ascii_of_nat 10.

Definition is_alnum (a : ascii) : bool :=
  let n := nat_of_ascii a in
  ((48 <=? n) && (n <=? 57) || (65 <=? n) && (n <=? 90) ||
   (97 <=? n) && (n <=? 122) || (n =? 95))%nat.

Definition is_ascii (a : ascii) : bool := (nat_of_ascii a <? 128)%nat.

(** Whether the item just parsed is an anchor, which cannot be
    repeated. *)
Definition is_anchor (r : regex) : bool :=
  match r with Bol | Eol => true | _ => false end.

(** The repeat suffix of an item: one [*]; a second repeat is refused,
    and the other repeat operators are outside the fragment. *)
Definition parse_repeat (item : regex) (s : list ascii)
    : parsed (regex * list ascii) :=
  match s with
  | "*"%char :: s' =>
      if is_anchor item then Invalid
      else
        match s' with
        | "*"%char :: _ => Invalid
        | "+"%char :: _ | "?"%char :: _ | "{"%char :: _ => Unsupported
        | _ => Parsed (Star item, s')
        end
  | "+"%char :: _ | "?"%char :: _ | "{"%char :: _ => Unsupported
  | _ => Parsed (item, s)
  end.

(** [seq] alone, or [seq | alts]. *)
Definition alternatives (seq : regex) (alts : option regex) : regex :=
  match alts with
  | Some r => Alt seq r
  | None => seq
  end.

(** Parses up to an unmatched [)] or the end: the sequence of items
    before the first [|], the alternatives after it, and the rest of
    the input. *)
Fixpoint parse_alt (fuel : nat) (s : list ascii)
    : parsed (regex * option regex * list ascii) :=
  match fuel with
  | O => Unsupported
  | S fuel =>
      let continue (item : regex) (s' : list ascii) :=
        match parse_repeat item s' with
        | Parsed (item', s'') =>
            match parse_alt fuel s'' with
            | Parsed (seq, alts, rest) => Parsed (Cat item' seq, alts, rest)
            | Invalid => Invalid
            | Unsupported => Unsupported
            end
        | Invalid => Invalid
        | Unsupported => Unsupported
        end in
      match s with
      | [] => Parsed (Eps, None, [])
      | ")"%char :: _ => Parsed (Eps, None, s)
      | "|"%char :: s' =>
          match parse_alt fuel s' with
          | Parsed (seq, alts, rest) =>
              Parsed (Eps, Some (alternatives seq alts), rest)
          | Invalid => Invalid
          | Unsupported => Unsupported
          end
      | "("%char :: "?"%char :: _ => Unsupported
      | "("%char :: s' =>
          match parse_alt fuel s' with
          | Parsed (seq, alts, ")"%char :: rest) =>
              continue (alternatives seq alts) rest
          | Parsed (_, _, _) => Invalid
          | Invalid => Invalid
          | Unsupported => Unsupported
          end
      | "*"%char :: _ => Invalid
      | "+"%char :: _ | "?"%char :: _ | "{"%char :: _ | "["%char :: _ =>
          Unsupported
      | "."%char :: s' => continue Dot s'
      | "^"%char :: s' => continue Bol s'
      | "$"%char :: s' => continue Eol s'
      | "\"%char :: [] => Invalid
      | "\"%char :: c :: s' =>
          if is_alnum c || negb (is_ascii c) then Unsupported
          else continue (Chr c) s'
      | c :: s' =>
          if is_ascii c then continue (Chr c) s' else Unsupported
      end
  end.

(** [re.compile]: a closing parenthesis that no group opened is
    refused. *)
Definition compile (p : string) : parsed regex :=
  let s := String.list_ascii_of_string p in
  match parse_alt (S (length s)) s with
  | Parsed (seq, alts, []) => Parsed (alternatives seq alts)
  | Parsed (_, _, _ :: _) => Invalid
  | Invalid => Invalid
  | Unsupported => Unsupported
  end.

(** Matching by backtracking: [k] continues with the rest of the
    subject; [at_start] tells whether nothing has been consumed since
    the start of the subject.  A repetition gives up on an
    iteration that consumes nothing. *)
Fixpoint matches (r : regex) (at_start : bool) (s : list ascii)
    (k : bool -> list ascii -> bool) : bool :=
  match r with
  | Eps => k at_start s
  | Chr a =>
      match s with
      | c :: s' => Ascii.eqb a c && k false s'
      | [] => false
      end
  | Dot =>
      match s with
      | c :: s' => negb (Ascii.eqb c newline) && k false s'
      | [] => false
      end
  | Bol => at_start && k at_start s
  | Eol =>
      match s with
      | [] => k at_start s
      | [c] => Ascii.eqb c newline && k at_start s
      | _ => false
      end
  | Cat r1 r2 => matches r1 at_start s (fun b s' => matches r2 b s' k)
  | Alt r1 r2 => matches r1 at_start s k || matches r2 at_start s k
  | Star r1 =>
      (fix star (fuel : nat) (b : bool) (s : list ascii) : bool :=
         k b s ||
         match fuel with
         | O => false
         | S fuel =>
             matches r1 b s
               (fun b' s' => (length s' <? length s)%nat && star fuel b' s')
         end) (length s) at_start s
  end.

(** [re.search]: a match that starts at some position of the
    subject. *)
Fixpoint search_from (r : regex) (at_start : bool) (s : list ascii)
    : bool :=
  matches r at_start s (fun _ _ => true) ||
  match s with
  | [] => false
  | _ :: s' => search_from r false s'
  end.

Definition valid (p : string) : bool :=
  match compile p with Parsed _ => true | _ => false end.

Definition search (p s : string) : bool :=
  match compile p with
  | Parsed r => search_from r true (String.list_ascii_of_string s)
  | _ => false
  end.

End MiniRe.


(** ** A host for the examples

    A filesystem given by its walk from [fx_top], files with their raw
    content and safe-to-show flag, a loader given by the values of the
    raw contents, and [MiniRe] as the regular expression engine.
    [fx_format] is exact on strings, which is all the examples
    format. *)
Module Fixture.

Record Files := {
  fx_top : string;
  fx_walk : list (string * list string * list string);
  fx_files : list (string * (string * bool));
  fx_yaml : list (string * PyValue)
}.

Definition fx_format (v : PyValue) : string :=
  match v with
  | PyStr s => s
  | PyNone => "None"
  | PyBool b => if b then "True" else "False"
  | PyInt z => pretty z
  | PyList _ => "[...]"
  | PyDict _ => "{...}"
  end.

Definition lookup_str {A} (k : string) (l : list (string * A)) : option A :=
  snd <$> find (fun kv => String.eqb kv.1 k) l.

(** The paths that exist: the directories of the walk and the files
    they list. *)
Definition fx_paths (fs : Files) : list string :=
  flat_map (fun e => e.1.1 :: ((fun f => path_join e.1.1 [f]) <$> e.2))
           (fx_walk fs).

Definition fx_host (fs : Files) : Host :=
  {| re_valid := MiniRe.valid;
     re_search := MiniRe.search;
     py_format := fx_format;
     py_format_str := fun s => eq_refl;
     fs_exists := fun p =>
       match p with
       | PyStr p => Ok (bool_decide (p ∈ fx_paths fs))
       | _ => Raise (TypeError "stat")
       end;
     fs_walk := fun p =>
       match p with
       | PyStr p => Ok (if String.eqb p (fx_top fs) then fx_walk fs else [])
       | _ => Raise (TypeError "fspath")
       end;
     get_file_contents := fun p =>
       match lookup_str p (fx_files fs) with
       | Some c => Ok c
       | None => Raise (AnsibleError "unable to retrieve file contents")
       end;
     loader_load := fun raw _ =>
       match lookup_str raw (fx_yaml fs) with
       | Some v => Ok v
       | None => Raise (AnsibleError "Syntax Error while loading YAML")
       end;
     dict_keys := fun d => (map_to_list d).*1;
     dict_keys_perm := fun d => Permutation_refl _ |}.

(** [vars/] with two files and a subdirectory. *)
Definition tree : Files :=
  {| fx_top := "vars";
     fx_walk := [("vars/sub", [], ["c.yml"]);
                 ("vars", ["sub"], ["b.yml"; "a.yml"; "README.md"])];
     fx_files := [("vars/a.yml", ("x: 1", true));
                  ("vars/b.yml", ("x: 2", true));
                  ("vars/sub/c.yml", ("y: {}", true));
                  ("vars/README.md", ("# doc", true))];
     fx_yaml := [("x: 1", PyDict {["x" := PyInt 1]});
                 ("x: 2", PyDict {["x" := PyInt 2]});
                 ("y: {}", PyDict {["y" := PyDict ∅]});
                 ("- 1", PyList [PyInt 1]);
                 ("# doc", PyNone);
                 ("", PyNone)] |}.

(** [vars/] with a file that holds a list in its subdirectory. *)
Definition broken : Files :=
  {| fx_top := "vars";
     fx_walk := [("vars", ["z"], ["a.yml"]);
                 ("vars/z", [], ["m.yml"; "l.yml"])];
     fx_files := [("vars/a.yml", ("x: 1", true));
                  ("vars/z/l.yml", ("- 1", true));
                  ("vars/z/m.yml", ("x: 2", true))];
     fx_yaml := fx_yaml tree |}.

(** [vars/] with a file whose content must not be shown. *)
Definition vault : Files :=
  {| fx_top := "vars";
     fx_walk := [("vars", [], ["secret.yml"])];
     fx_files := [("vars/secret.yml", ("x: 1", false))];
     fx_yaml := fx_yaml tree |}.

(** [vars/] with a file to ignore by name, a documentation file and
    [main.yml]. *)
Definition secrets : Files :=
  {| fx_top := "vars";
     fx_walk := [("vars", [],
                  ["a.yml"; "secret.yml"; "README.md"; "main.yml"])];
     fx_files := [("vars/a.yml", ("x: 1", true));
                  ("vars/secret.yml", ("x: 2", true));
                  ("vars/README.md", ("# doc", true));
                  ("vars/main.yml", ("y: {}", true))];
     fx_yaml := fx_yaml tree |}.

(** The [vars/] directory of a role, with its [main.yml]. *)
Definition role_tree : Files :=
  {| fx_top := "/roles/web/vars";
     fx_walk := [("/roles/web/vars", [], ["main.yml"; "a.yml"])];
     fx_files := [("/roles/web/vars/a.yml", ("x: 1", true));
                  ("/roles/web/vars/main.yml", ("x: 2", true))];
     fx_yaml := fx_yaml tree |}.

(** The host of the examples on [tree]. *)
Definition host : Host := fx_host tree.

Definition task_of (a : list (string * PyValue)) : Task :=
  {| args := a; _ds := PyStr "include_vars_dir"; _role := None |}.

Definition task_plain : Task := task_of [("dir", PyStr "vars")].

Definition task_depth_1 : Task :=
  task_of [("dir", PyStr "vars"); ("depth", PyInt 1)].

Definition task_negative_depth : Task :=
  task_of [("dir", PyStr "vars"); ("depth", PyInt (-1))].

Definition task_bogus : Task :=
  task_of [("dir", PyStr "vars"); ("bogus", PyInt 1)].

Definition task_bad_pattern : Task :=
  task_of [("dir", PyStr "vars"); ("files_matching", PyStr "(")].

Definition task_no_dir_bad_pattern : Task :=
  task_of [("files_matching", PyStr "(")].

Definition task_no_dir : Task := task_of [("depth", PyInt 2)].

Definition task_ignore_dict : Task :=
  task_of [("dir", PyStr "vars");
           ("ignore_files", PyDict {["b.yml" := PyInt 1]})].

Definition task_ignore_glob : Task :=
  task_of [("dir", PyStr "vars"); ("ignore_files", PyStr "b.yml *.md")].

Definition task_ignore_secret : Task :=
  task_of [("dir", PyStr "vars");
           ("ignore_files", PyList [PyStr "secret.yml"])].

Definition task_in_role : Task :=
  {| args := [("dir", PyStr "vars")]; _ds := PyStr "include_vars_dir";
     _role := Some {| _role_path := "/roles/web" |} |}.

(** The result and the log of [task_plain] on [tree] and on
    [broken]. *)
Definition plain_result : Result :=
  {| failed := None; message := None;
     ansible_facts := Some (Flat (<["x" := PyInt 2]> {["y" := PyDict ∅]}));
     _ansible_no_log := Some true |}.

Definition plain_log : list FsOp :=
  [OpExists (PyStr "vars"); OpWalk (PyStr "vars");
   OpExists (PyStr "vars/README.md");
   OpExists (PyStr "vars/a.yml"); OpRead "vars/a.yml";
   OpExists (PyStr "vars/b.yml"); OpRead "vars/b.yml";
   OpExists (PyStr "vars/sub/c.yml"); OpRead "vars/sub/c.yml"].

Definition broken_result : Result :=
  {| failed := Some true;
     message := Some "vars/z/l.yml must be stored as a dictionary/hash";
     ansible_facts := Some (Flat {["x" := PyInt 1]});
     _ansible_no_log := Some true |}.

Definition broken_log : list FsOp :=
  [OpExists (PyStr "vars"); OpWalk (PyStr "vars");
   OpExists (PyStr "vars/a.yml"); OpRead "vars/a.yml";
   OpExists (PyStr "vars/z/l.yml"); OpRead "vars/z/l.yml"].


End Fixture.

(** ** Notions used in the statements *)

(** [x] comes no later than [y] in the order of the keys. *)
Definition key_le {A} (key : A -> string) (x y : A) : Prop :=
  String.leb (key x) (key y) = true.

(** A computation that only appends to the log, and whose result does
    not depend on the earlier accesses. *)
Definition framed {A} (m : M A) : Prop :=
  forall log, m log = ((m []).1, log ++ (m []).2).

(** What the walker yields for an entry of the walk. *)
Definition yielded (e : string * list string * list string)
    : string * list string :=
  (e.1.1, sort_strings e.2).

(** The files that a log shows as read, in the order of the reads. *)
Definition reads (ops : list FsOp) : list string :=
  omap (fun op => match op with OpRead p => Some p | _ => None end) ops.

(** Every key of the argument dict is a recognized option. *)
Definition known_args (a : list (string * PyValue)) : bool :=
  forallb (fun kv => bool_decide (kv.1 ∈ VALID_ARGUMENTS)) a.

(** The directory that [run] looks for: [dir], taken in the role when
    there is one. *)
Definition resolved_dir `{host : Host} (task : Task) (self : ActionModule)
    : res PyValue :=
  (try! self' := role_source_dir task self in
   attr "source_dir" (source_dir self'))%res.

(** [isinstance(v, str)] or [isinstance(v, list)] *)
Definition is_str_or_list (v : PyValue) : bool :=
  match v with
  | PyStr _ | PyList _ => true
  | _ => false
  end.

Section file_notions.
Context `{host : Host}.

(** What the loader gives for a path: the parsed value and the
    safe-to-show flag. *)
Definition loaded (p : string) : res (PyValue * bool) :=
  (try! (raw, show) := get_file_contents p in
   try! v := loader_load raw show in
   Ok (v, show))%res.

(** A parsed value that the merger accepts: a mapping, or nothing. *)
Definition is_mapping (v : PyValue) : bool :=
  match v with
  | PyNone | PyDict _ => true
  | _ => false
  end.

Definition file_is_mapping (p : string) : bool :=
  match loaded p with
  | Ok (v, _) => is_mapping v
  | Raise _ => true
  end.

(** The top-level mapping of a file; empty for an empty file. *)
Definition file_dict (p : string) : gmap string PyValue :=
  match loaded p with
  | Ok (PyDict d, _) => d
  | _ => ∅
  end.

(** The safe-to-show flag of a file. *)
Definition file_flag (p : string) : bool :=
  match loaded p with
  | Ok (_, show) => show
  | Raise _ => true
  end.

(** The files [ps] merged in this order into [acc]: each file
    overwrites the keys it has. *)
Definition merge_files (ps : list string) (acc : gmap string PyValue)
    : gmap string PyValue :=
  foldl (fun acc p => file_dict p ∪ acc) acc ps.

Definition not_a_dict_msg (p : string) : string :=
  p +:+ " must be stored as a dictionary/hash".

(** The state of [_load_files] after the reads [ps], and the
    condition under which the loop makes these reads: each one from a
    state that has not failed, of a file that the loader returns. *)
Definition absorb_file (st : LoadState) (p : string) : LoadState :=
  match loaded p with
  | Ok (v, show) => absorb st p v show
  | Raise _ => st
  end.

Definition replay (ps : list string) (st : LoadState) : LoadState :=
  foldl absorb_file st ps.

Fixpoint read_seq (ps : list string) (st : LoadState) : Prop :=
  match ps with
  | [] => True
  | p :: ps' =>
      ls_failed st = false /\
      (exists v show, loaded p = Ok (v, show)) /\
      read_seq ps' (absorb_file st p)
  end.

(** The paths of the files of the yielded directories, in the order
    in which [run] goes through them. *)
Definition candidates (entries : list (string * list string))
    : list string :=
  flat_map (fun e => (fun f => path_join e.1 [f]) <$> e.2) entries.

(** The pattern that [_ignore_file] searches for an entry of
    [ignore_files]. *)
Definition anchored (file_type : PyValue) : string :=
  py_format file_type +:+ "$".

End file_notions.

(** The files of a walk in the order of the traversal: the
    directories sorted by their path and, in each directory, the files
    sorted by their name. *)
Definition traversal (walked : list (string * list string * list string))
    : list string :=
  candidates (yielded <$> sort_by (fun e => e.1.1) walked).

(** The (directory, file name) pairs of the traversal, and their
    lexicographic order. *)
Definition traversal_pairs
    (walked : list (string * list string * list string))
    : list (string * string) :=
  flat_map (fun e => (fun f => (e.1.1, f)) <$> sort_strings e.2)
           (sort_by (fun e => e.1.1) walked).

Definition pair_le (a b : string * string) : Prop :=
  (a.1 <> b.1 /\ String.leb a.1 b.1 = true) \/
  (a.1 = b.1 /\ String.leb a.2 b.2 = true).

(** The order of the directories alone. *)
Definition root_le (a b : string * string) : Prop :=
  String.leb a.1 b.1 = true.

(** The pattern [q] compiles and does not match the file name, so
    that [_ignore_file] goes on to the next pattern. *)
Definition passes `{host : Host} (filename : string) (q : PyValue) : Prop :=
  re_valid (anchored q) = true /\ re_search (anchored q) filename = false.

(** ** Notions used in the further properties *)

(** The entries that the user gives in [ignore_files]: a string is
    split, a list is taken as it is. *)
Definition user_patterns (ign : PyValue) : list PyValue :=
  match ign with
  | PyStr s => PyStr <$> py_split s
  | PyList l => l
  | _ => []
  end.

(** The reads of a log come each right after the existence check of
    the same path; [pending] is the path just checked. *)
Fixpoint guarded_from (pending : option string) (ops : list FsOp) : bool :=
  match ops with
  | [] => true
  | OpRead q :: rest =>
      match pending with
      | Some p => String.eqb p q && guarded_from None rest
      | None => false
      end
  | OpExists (PyStr p) :: rest => guarded_from (Some p) rest
  | _ :: rest => guarded_from None rest
  end.

Definition guarded (ops : list FsOp) : bool := guarded_from None ops.

(** An access to a file: an existence check or a read, not a walk. *)
Definition is_file_op (op : FsOp) : bool :=
  match op with
  | OpWalk _ => false
  | _ => true
  end.

Section merger_notions.
Context `{host : Host}.

(** The file name gets past the first tests of the loop of
    [_load_files]: it is no [main.yml] of a role and [files_matching]
    does not exclude it. *)
Definition eligible (task : Task) (self : ActionModule) (f : string)
    : Prop :=
  bool_decide (is_Some (_role task)) && String.eqb f "main.yml" = false /\
  not_matching self f = Ok false.

(** The accesses of the loop of [_load_files] over [files]: for each
    file in turn nothing, the existence check, or the check and the
    read; only for files that satisfy [ok].  The loop may end early. *)
Inductive file_ops (root : string) (ok : string -> Prop)
    : list string -> list FsOp -> Prop :=
| fo_end (files : list string) : file_ops root ok files []
| fo_skip (f : string) (files : list string) (ops : list FsOp) :
    file_ops root ok files ops -> file_ops root ok (f :: files) ops
| fo_stat (f : string) (files : list string) (ops : list FsOp) :
    ok f -> file_ops root ok files ops ->
    file_ops root ok (f :: files)
      (OpExists (PyStr (path_join root [f])) :: ops)
| fo_read (f : string) (files : list string) (ops : list FsOp) :
    ok f -> file_ops root ok files ops ->
    file_ops root ok (f :: files)
      (OpExists (PyStr (path_join root [f]))
       :: OpRead (path_join root [f]) :: ops).

(** What one iteration of the loop of [_load_files] does for the file
    [f]. *)
Inductive load_step (task : Task) (root f : string) (rest : list string)
    (st : LoadState) (log : list FsOp) : Prop :=
| step_skip :
    load_loop task root (f :: rest) st log = load_loop task root rest st log ->
    load_step task root f rest st log
| step_raise (e : exn) :
    load_loop task root (f :: rest) st log = (Raise e, log) ->
    load_step task root f rest st log
| step_stat_raise (e : exn) :
    eligible task (ls_self st) f -> ls_failed st = false ->
    load_loop task root (f :: rest) st log =
      (Raise e, log ++ [OpExists (PyStr (path_join root [f]))]) ->
    load_step task root f rest st log
| step_stat :
    eligible task (ls_self st) f -> ls_failed st = false ->
    load_loop task root (f :: rest) st log =
      load_loop task root rest st
        (log ++ [OpExists (PyStr (path_join root [f]))]) ->
    load_step task root f rest st log
| step_read_raise (e : exn) :
    eligible task (ls_self st) f -> ls_failed st = false ->
    load_loop task root (f :: rest) st log =
      (Raise e, log ++ [OpExists (PyStr (path_join root [f]));
                        OpRead (path_join root [f])]) ->
    load_step task root f rest st log
| step_read (v : PyValue) (show : bool) :
    eligible task (ls_self st) f -> ls_failed st = false ->
    loaded (path_join root [f]) = Ok (v, show) ->
    load_loop task root (f :: rest) st log =
      load_loop task root rest (absorb st (path_join root [f]) v show)
        (log ++ [OpExists (PyStr (path_join root [f]));
                 OpRead (path_join root [f])]) ->
    load_step task root f rest st log.

End merger_notions.

(** ** Further tasks and hosts for the examples *)
Module Cases.

Definition task_matching : Task :=
  Fixture.task_of [("dir", PyStr "vars"); ("files_matching", PyStr "^a")].

Definition task_missing : Task := Fixture.task_of [("dir", PyStr "nope")].

Definition task_ignore_none : Task :=
  Fixture.task_of [("dir", PyStr "vars"); ("ignore_files", PyNone)].

Definition task_named : Task :=
  Fixture.task_of [("dir", PyStr "vars"); ("name", PyStr "app")].

(** [dir] names a file, which exists and whose walk is empty; the
    depth is no number. *)
Definition task_on_file : Task :=
  Fixture.task_of [("dir", PyStr "vars/a.yml"); ("depth", PyStr "deep")].




Definition task_role_sub : Task :=
  {| args := [("dir", PyStr "sub")]; _ds := PyStr "include_vars_dir";
     _role := Some {| _role_path := "/roles/web" |} |}.

(** The host of [Fixture.tree] after [vars/b.yml] has been removed:
    the walk still lists it. *)
Definition gone_host : Host :=
  {| re_valid := MiniRe.valid;
     re_search := MiniRe.search;
     py_format := Fixture.fx_format;
     py_format_str := fun s => eq_refl;
     fs_exists := fun p =>
       if py_eq_str p "vars/b.yml" then Ok false
       else fs_exists (Host := Fixture.host) p;
     fs_walk := fs_walk (Host := Fixture.host);
     get_file_contents := get_file_contents (Host := Fixture.host);
     loader_load := loader_load (Host := Fixture.host);
     dict_keys := dict_keys (Host := Fixture.host);
     dict_keys_perm := dict_keys_perm (Host := Fixture.host) |}.

(** A mapping for [ignore_files] with two keys, and the two hosts
    that stand for the two orders in which the keys may have been
    inserted: [Fixture.host] gives [a.yml] first, [rev_host] gives
    [*.md] first. *)
Definition two_keys : gmap string PyValue :=
  <["*.md" := PyInt 1]> {["a.yml" := PyInt 1]}.

Definition task_ignore_two : Task :=
  Fixture.task_of [("dir", PyStr "vars"); ("ignore_files", PyDict two_keys)].

Definition rev_host : Host :=
  {| re_valid := MiniRe.valid;
     re_search := MiniRe.search;
     py_format := Fixture.fx_format;
     py_format_str := fun s => eq_refl;
     fs_exists := fs_exists (Host := Fixture.host);
     fs_walk := fs_walk (Host := Fixture.host);
     get_file_contents := get_file_contents (Host := Fixture.host);
     loader_load := loader_load (Host := Fixture.host);
     dict_keys := fun d => rev (map_to_list d).*1;
     dict_keys_perm := fun d => Permutation_sym (Permutation_rev _) |}.

(** [vars/] with two files that hold nothing. *)
Definition empties : Fixture.Files :=
  {| Fixture.fx_top := "vars";
     Fixture.fx_walk := [("vars", [], ["e.yml"; "f.yml"])];
     Fixture.fx_files := [("vars/e.yml", ("", true));
                          ("vars/f.yml", ("# doc", false))];
     Fixture.fx_yaml := Fixture.fx_yaml Fixture.tree |}.

(** [vars/] with a subdirectory in which a mapping comes before a
    list. *)
Definition partial : Fixture.Files :=
  {| Fixture.fx_top := "vars";
     Fixture.fx_walk := [("vars", ["z"], ["a.yml"]);
                         ("vars/z", [], ["l.yml"; "k.yml"; "m.yml"])];
     Fixture.fx_files := [("vars/a.yml", ("x: 1", true));
                          ("vars/z/k.yml", ("y: {}", true));
                          ("vars/z/l.yml", ("- 1", true));
                          ("vars/z/m.yml", ("x: 2", true))];
     Fixture.fx_yaml := Fixture.fx_yaml Fixture.tree |}.

(** The state in which [_load_files] starts for a task, and the same
    state after a failure. *)
Definition start_state `{host : Host} (task : Task) : LoadState :=
  {| ls_results := ∅; ls_failed := false; ls_err_msg := "";
     ls_self := self_of task |}.

Definition failed_state `{host : Host} (task : Task) : LoadState :=
  {| ls_results := ∅; ls_failed := true;
     ls_err_msg := "vars/l.yml must be stored as a dictionary/hash";
     ls_self := self_of task |}.

(** The result and the log of [Fixture.task_plain] on [partial] and
    on [empties], and the result of [task_named] on [Fixture.tree]. *)
Definition partial_result : Result :=
  {| failed := Some true;
     message := Some "vars/z/l.yml must be stored as a dictionary/hash";
     ansible_facts := Some (Flat {["x" := PyInt 1]});
     _ansible_no_log := Some true |}.

Definition partial_log : list FsOp :=
  [OpExists (PyStr "vars"); OpWalk (PyStr "vars");
   OpExists (PyStr "vars/a.yml"); OpRead "vars/a.yml";
   OpExists (PyStr "vars/z/k.yml"); OpRead "vars/z/k.yml";
   OpExists (PyStr "vars/z/l.yml"); OpRead "vars/z/l.yml"].

Definition empties_result : Result :=
  {| failed := None; message := None;
     ansible_facts := Some (Flat ∅);
     _ansible_no_log := Some false |}.

Definition empties_log : list FsOp :=
  [OpExists (PyStr "vars"); OpWalk (PyStr "vars");
   OpExists (PyStr "vars/e.yml"); OpRead "vars/e.yml";
   OpExists (PyStr "vars/f.yml"); OpRead "vars/f.yml"].

Definition named_result : Result :=
  {| failed := None; message := None;
     ansible_facts :=
       Some (Scoped (PyStr "app")
               (<["x" := PyInt 2]> {["y" := PyDict ∅]}));
     _ansible_no_log := Some true |}.

End Cases.

(** * Properties *)

(** ** The order of strings and the sort *)

Lemma ascii_compare_lt_trans (a b c : ascii) :
  Ascii.compare a b = Lt -> Ascii.compare b c = Lt -> Ascii.compare a c = Lt.
Proof.
  unfold Ascii.compare. rewrite !N.compare_lt_iff. lia.
Qed.

Lemma ascii_compare_eq (a b : ascii) : Ascii.compare a b = Eq -> a = b.
Proof.
  unfold Ascii.compare. rewrite N.compare_eq_iff. intros E.
  rewrite <- (ascii_N_embedding a), <- (ascii_N_embedding b). by rewrite E.
Qed.

Lemma string_compare_lt_trans (a b c : string) :
  String.compare a b = Lt -> String.compare b c = Lt ->
  String.compare a c = Lt.
Proof.
  revert b c. induction a as [|x a IH]; intros [|y b] [|z c]; simpl;
    try done.
  destruct (Ascii.compare x y) eqn:Exy; try done;
    destruct (Ascii.compare y z) eqn:Eyz; try done; intros Hab Hbc.
  - apply ascii_compare_eq in Exy, Eyz. subst.
    unfold Ascii.compare. rewrite N.compare_refl. eauto.
  - apply ascii_compare_eq in Exy. subst. by rewrite Eyz.
  - apply ascii_compare_eq in Eyz. subst. by rewrite Exy.
  - by rewrite (ascii_compare_lt_trans x y z).
Qed.

Lemma string_leb_trans (a b c : string) :
  String.leb a b = true -> String.leb b c = true -> String.leb a c = true.
Proof.
  unfold String.leb.
  destruct (String.compare a b) eqn:Eab; try done;
    destruct (String.compare b c) eqn:Ebc; try done; intros _ _.
  - apply String.compare_eq_iff in Eab. subst. by rewrite Ebc.
  - apply String.compare_eq_iff in Eab. subst. by rewrite Ebc.
  - apply String.compare_eq_iff in Ebc. subst. by rewrite Eab.
  - by rewrite (string_compare_lt_trans a b c).
Qed.

Section sort_facts.
Context {A : Type} (key : A -> string).

Lemma insert_by_Permutation (x : A) (l : list A) :
  Permutation (insert_by key x l) (x :: l).
Proof.
  induction l as [|y l IH]; simpl; [done|].
  destruct (String.leb (key x) (key y)); [done|].
  rewrite IH. apply perm_swap.
Qed.

Lemma sort_by_Permutation (l : list A) : Permutation (sort_by key l) l.
Proof.
  induction l as [|x l IH]; simpl; [done|].
  by rewrite insert_by_Permutation, IH.
Qed.

Lemma sort_by_length (l : list A) : length (sort_by key l) = length l.
Proof. apply Permutation_length, sort_by_Permutation. Qed.

Lemma insert_by_sorted (x : A) (l : list A) :
  StronglySorted (key_le key) l -> StronglySorted (key_le key) (insert_by key x l).
Proof.
  induction 1 as [|y l Hl IH Hy]; simpl.
  { repeat constructor. }
  destruct (String.leb (key x) (key y)) eqn:E.
  - constructor; [by constructor|]. constructor; [done|].
    eapply Forall_impl; [exact Hy|]. intros z Hz.
    by apply (string_leb_trans _ (key y)).
  - constructor; [done|].
    rewrite insert_by_Permutation. constructor; [|done].
    unfold key_le. destruct (String.leb_total (key x) (key y)); congruence.
Qed.

Lemma sort_by_sorted (l : list A) : StronglySorted (key_le key) (sort_by key l).
Proof.
  induction l as [|x l IH]; simpl; [constructor|].
  by apply insert_by_sorted.
Qed.

End sort_facts.

(** ** The log *)

Lemma framed_ret {A} (a : A) : framed (ret a).
Proof. intros log. unfold ret. simpl. by rewrite app_nil_r. Qed.

Lemma framed_raise {A} (e : exn) : framed (raise (A:=A) e).
Proof. intros log. unfold raise. simpl. by rewrite app_nil_r. Qed.

Lemma framed_lift {A} (r : res A) : framed (lift r).
Proof. intros log. unfold lift. simpl. by rewrite app_nil_r. Qed.

Lemma framed_access {A} (op : FsOp) (r : res A) : framed (access op r).
Proof. intros log. done. Qed.

Lemma framed_bind {A B} (m : M A) (k : A -> M B) :
  framed m -> (forall a, framed (k a)) -> framed (bind m k).
Proof.
  intros Hm Hk log. unfold bind. rewrite (Hm log).
  destruct (m []) as [[a|e] ops]; simpl; [|done].
  rewrite (Hk a (log ++ ops)), (Hk a ops). simpl. by rewrite app_assoc.
Qed.

Lemma framed_if {A} (b : bool) (m1 m2 : M A) :
  framed m1 -> framed m2 -> framed (if b then m1 else m2).
Proof. by destruct b. Qed.

(** A computation from the empty log gives the computation from any
    log. *)
Lemma framed_run {A} (m : M A) (r : res A) (ops log : list FsOp) :
  framed m -> m [] = (r, ops) -> m log = (r, log ++ ops).
Proof. intros Hm E. rewrite (Hm log). by rewrite E. Qed.

Create HintDb framed.
#[local] Hint Resolve framed_ret framed_raise framed_lift framed_access
  framed_if : framed.

Section walker_facts.
Context `{host : Host}.

Lemma traverse_loop_unlimited (c : Z)
    (l : list (string * list string * list string)) :
  traverse_loop (PyInt 0) c l = Ok (yielded <$> l).
Proof.
  revert c. induction l as [|[[root dirs] files] l IH]; intros c; [done|].
  simpl. rewrite orb_true_r. simpl. by rewrite IH.
Qed.

Lemma traverse_loop_limited (d c : Z)
    (l : list (string * list string * list string)) :
  0 <= c -> 1 <= d ->
  traverse_loop (PyInt d) c l = Ok (yielded <$> take (Z.to_nat (d - c)) l).
Proof.
  intros Hc Hd. revert c Hc.
  induction l as [|[[root dirs] files] l IH]; intros c Hc.
  { by rewrite take_nil. }
  simpl. replace (d =? 0) with false by lia. rewrite orb_false_r.
  destruct (c + 1 <=? d) eqn:E; simpl.
  - rewrite IH by lia.
    replace (Z.to_nat (d - c)) with (S (Z.to_nat (d - (c + 1)))) by lia.
    done.
  - replace (Z.to_nat (d - c)) with O by lia. done.
Qed.

Lemma traverse_loop_negative (d c : Z)
    (l : list (string * list string * list string)) :
  0 <= c -> d < 0 -> traverse_loop (PyInt d) c l = Ok [].
Proof.
  intros Hc Hd. destruct l as [|[[root dirs] files] l]; [done|].
  simpl. replace (c + 1 <=? d) with false by lia.
  by replace (d =? 0) with false by lia.
Qed.

Lemma traverse_framed (self : ActionModule) : framed (_traverse_dir_depth self).
Proof.
  unfold _traverse_dir_depth.
  repeat (apply framed_bind; [auto with framed|intros ?]). auto with framed.
Qed.

(** C4.  With a depth limit [d >= 1] the walker yields the first
    [min d n] of the [n] directories of the walk, sorted by their
    path, each with its file names sorted, and nothing after them; with
    [d = 0] it yields all [n].  The walk is read once. *)
Theorem C4_depth_limit (self : ActionModule) (top : PyValue)
    (walked : list (string * list string * list string)) (d : Z)
    (log : list FsOp) :
  source_dir self = Some top ->
  fs_walk top = Ok walked ->
  depth self = Some (PyInt d) ->
  0 <= d ->
  let sorted := sort_by (fun e => e.1.1) walked in
  let n := length walked in
  Permutation sorted walked /\
  StronglySorted (key_le (fun e => e.1.1)) sorted /\
  _traverse_dir_depth self log =
    (Ok (yielded <$>
           take (if d =? 0 then n else Z.to_nat d `min` n) sorted),
     log ++ [OpWalk top]).
Proof.
  intros Hdir Hwalk Hdepth Hd sorted n.
  split; [apply sort_by_Permutation|].
  split; [apply sort_by_sorted|].
  apply framed_run; [apply traverse_framed|].
  unfold _traverse_dir_depth, bind, lift, access.
  rewrite Hdir, Hdepth. simpl. rewrite Hwalk. fold sorted.
  assert (Hn : length sorted = n) by apply sort_by_length.
  destruct (d =? 0) eqn:E.
  - replace d with 0 by lia. rewrite traverse_loop_unlimited.
    by rewrite <- Hn, firstn_all.
  - rewrite traverse_loop_limited by lia. rewrite Z.sub_0_r.
    destruct (decide (Z.to_nat d <= n)%nat) as [Hle|Hgt].
    + by rewrite Nat.min_l.
    + rewrite Nat.min_r by lia.
      by rewrite !take_ge by lia.
Qed.

End walker_facts.

Lemma C4_depth_limit_witness :
  0 <= 1 /\
  _traverse_dir_depth (host := Fixture.host)
    (self_of (host := Fixture.host) Fixture.task_depth_1) [] =
    (Ok [("vars", ["README.md"; "a.yml"; "b.yml"])],
     [OpWalk (PyStr "vars")]).
Proof.
  split; [lia|].
  apply (C4_depth_limit (host := Fixture.host)
           (self_of (host := Fixture.host) Fixture.task_depth_1)
           (PyStr "vars") (Fixture.fx_walk Fixture.tree) 1 []);
    [reflexivity|reflexivity|reflexivity|lia].
Defined.

(** ** Argument resolution *)

Section resolver_facts.
Context `{host : Host}.

Local Abbreviation arg_name task := (args_get "name" PyNone (args task)).
Local Abbreviation arg_dir task := (args_get "dir" PyNone (args task)).
Local Abbreviation arg_depth task :=
  (args_get "depth" (PyInt 0) (args task)).
Local Abbreviation arg_files_matching task :=
  (args_get "files_matching" PyNone (args task)).
Local Abbreviation arg_ignore_files task :=
  (args_get "ignore_files" (PyList []) (args task)).

Lemma find_known (a : list (string * PyValue)) :
  known_args a = true ->
  find (fun kv => negb (bool_decide (kv.1 ∈ VALID_ARGUMENTS))) a = None.
Proof.
  induction a as [|kv a IH]; simpl; [done|].
  intros [Hkv Ha]%andb_true_iff. rewrite Hkv. simpl. auto.
Qed.

Lemma find_unknown (a : list (string * PyValue)) :
  known_args a = false ->
  exists arg v,
    find (fun kv => negb (bool_decide (kv.1 ∈ VALID_ARGUMENTS))) a
      = Some (arg, v) /\
    (arg ∉ VALID_ARGUMENTS) /\ ((arg, v) ∈ a).
Proof.
  induction a as [|[k v] a IH]; simpl; [done|].
  destruct (bool_decide (k ∈ VALID_ARGUMENTS)) eqn:E; simpl.
  - intros (arg & w & Hf & Hn & Hin)%IH. exists arg, w.
    split_and!; [done|done|by right].
  - intros _. exists k, v. apply bool_decide_eq_false in E.
    split_and!; [done|done|by left].
Qed.

(** An unrecognized option makes [_set_args] return a failure dict,
    before it has assigned any attribute. *)
Lemma set_args_unknown (task : Task) (self : ActionModule) :
  known_args (args task) = false ->
  exists arg v,
    ((arg, v) ∈ args task) /\ (arg ∉ VALID_ARGUMENTS) /\
    _set_args task self =
      Ok (Some (failure (arg +:+ " is not a valid option in debug")), self).
Proof.
  intros (arg & v & Hf & Hn & Hin)%find_unknown. exists arg, v.
  split_and!; [done|done|].
  unfold _set_args. rewrite Hf. by rewrite py_format_str.
Qed.

Lemma run_raise (task : Task) (e : exn) (log : list FsOp) :
  _set_args task init_self = Raise e -> run task log = (Raise e, log).
Proof. intros E. unfold run, bind, lift. by rewrite E. Qed.

(** [run] drops the failure dict and then reads an attribute that
    [_set_args] has not assigned. *)
Lemma run_unknown (task : Task) (log : list FsOp) :
  known_args (args task) = false ->
  run task log = (Raise (AttributeError "source_dir"), log).
Proof.
  intros (arg & v & _ & _ & E)%(set_args_unknown task init_self).
  unfold run, bind, lift. rewrite E. unfold role_source_dir.
  by destruct (_role task).
Qed.

(** What a call of [_set_args] that returns [None] has assigned. *)
Lemma set_args_ok_inv (task : Task) (self0 self : ActionModule) :
  _set_args task self0 = Ok (None, self) ->
  known_args (args task) = true /\
  truthy (arg_dir task) = true /\
  show_content self = show_content self0 /\
  return_results_as_name self = Some (arg_name task) /\
  source_dir self = Some (arg_dir task) /\
  depth self = Some (arg_depth task) /\
  files_matching self = Some (arg_files_matching task) /\
  matcher self =
    Some (if truthy (arg_files_matching task)
          then Some (py_format (arg_files_matching task)) else None) /\
  exists l,
    ignore_files self = Some (PyList (l ++ (PyStr <$> IGNORE_FILES))) /\
    (arg_ignore_files task = PyList l \/
     exists s, arg_ignore_files task = PyStr s /\
               l = PyStr <$> py_split s).
Proof.
  intros E. destruct (known_args (args task)) eqn:Hk.
  2: { apply (set_args_unknown task self0) in Hk as (? & ? & _ & _ & E').
       rewrite E' in E. done. }
  unfold _set_args in E. rewrite (find_known _ Hk) in E.
  assert (Hrest : forall m,
    match arg_ignore_files task with
    | PyDict _ =>
        Ok (Some (failure (py_format (arg_ignore_files task)
                           +:+ " must be a list")),
            {| show_content := show_content self0;
               return_results_as_name := Some (arg_name task);
               source_dir := Some (arg_dir task);
               depth := Some (arg_depth task);
               files_matching := Some (arg_files_matching task);
               matcher := Some m;
               ignore_files := Some (arg_ignore_files task) |})
    | _ =>
        (try! ign2 :=
           match
             match arg_ignore_files task with
             | PyStr s => PyList (PyStr <$> py_split s)
             | _ => arg_ignore_files task
             end
           with
           | PyList l => Ok (PyList (l ++ (PyStr <$> IGNORE_FILES)))
           | _ => Raise (AttributeError "extend")
           end in
         if negb (truthy (arg_dir task)) then
           Raise (AnsibleError (no_directory_msg +:+ py_format (_ds task)))
         else
           Ok (None,
               {| show_content := show_content self0;
                  return_results_as_name := Some (arg_name task);
                  source_dir := Some (arg_dir task);
                  depth := Some (arg_depth task);
                  files_matching := Some (arg_files_matching task);
                  matcher := Some m;
                  ignore_files := Some ign2 |}))%res
    end = Ok (None, self) ->
    truthy (arg_dir task) = true /\
    show_content self = show_content self0 /\
    return_results_as_name self = Some (arg_name task) /\
    source_dir self = Some (arg_dir task) /\
    depth self = Some (arg_depth task) /\
    files_matching self = Some (arg_files_matching task) /\
    matcher self = Some m /\
    exists l,
      ignore_files self = Some (PyList (l ++ (PyStr <$> IGNORE_FILES))) /\
      (arg_ignore_files task = PyList l \/
       exists s, arg_ignore_files task = PyStr s /\
                 l = PyStr <$> py_split s)).
  { intros m. clear E.
    destruct (arg_ignore_files task) as [| | |s|l|d];
      simpl; try done.
    - destruct (truthy (arg_dir task)); simpl; [|done].
      intros [= <-]. simpl. split_and!; try done.
      eexists. split; [done|]. eauto.
    - destruct (truthy (arg_dir task)); simpl; [|done].
      intros [= <-]. simpl. split_and!; try done.
      eexists. split; [done|]. eauto. }
  split; [done|].
  destruct (truthy (arg_files_matching task)) eqn:Hfm.
  - destruct (re_valid (py_format (arg_files_matching task))) eqn:Hv;
      simpl in E; [|done].
    apply Hrest in E. naive_solver.
  - simpl in E. apply Hrest in E. naive_solver.
Qed.

(** C6, as amended.  When the options are all recognized, a
    [files_matching] pattern that does not compile makes argument
    resolution raise the error of [re.compile]: the invocation ends
    there, before any access to the filesystem, and the pattern never
    reaches a file name. *)
Theorem C6_pattern_compiled_at_resolution (task : Task)
    (log : list FsOp) :
  let fm := arg_files_matching task in
  known_args (args task) = true ->
  truthy fm = true ->
  re_valid (py_format fm) = false ->
  _set_args task init_self = Raise (ReError (py_format fm)) /\
  run task log = (Raise (ReError (py_format fm)), log).
Proof.
  intros fm Hk Ht Hv.
  assert (E : _set_args task init_self = Raise (ReError (py_format fm))).
  { unfold _set_args. rewrite (find_known _ Hk). fold fm.
    by rewrite Ht, Hv. }
  split; [done|]. by apply run_raise.
Qed.

(** C9, as amended.  When the options are all recognized,
    [files_matching] is empty or compiles, and [ignore_files] is
    absent, a string or a list, then a [dir] that is absent or empty
    makes argument resolution raise an [AnsibleError] whose message
    ends with the raw task definition, before any access to the
    filesystem. *)
Theorem C9_missing_directory (task : Task) (log : list FsOp) :
  known_args (args task) = true ->
  truthy (arg_files_matching task) = false \/
    re_valid (py_format (arg_files_matching task)) = true ->
  is_str_or_list (arg_ignore_files task) = true ->
  truthy (arg_dir task) = false ->
  _set_args task init_self =
    Raise (AnsibleError (no_directory_msg +:+ py_format (_ds task))) /\
  run task log =
    (Raise (AnsibleError (no_directory_msg +:+ py_format (_ds task))), log).
Proof.
  intros Hk Hfm Hign Hdir.
  assert (E : _set_args task init_self =
    Raise (AnsibleError (no_directory_msg +:+ py_format (_ds task)))).
  { unfold _set_args. rewrite (find_known _ Hk).
    assert (Hm : exists m,
      (if truthy (arg_files_matching task)
       then if re_valid (py_format (arg_files_matching task))
            then Ok (Some (py_format (arg_files_matching task)))
            else Raise (ReError (py_format (arg_files_matching task)))
       else Ok None) = Ok m).
    { destruct Hfm as [->| ->]; [by exists None|].
      destruct (truthy (arg_files_matching task)); eexists; reflexivity. }
    destruct Hm as [m ->]. simpl.
    destruct (arg_ignore_files task); try done;
      simpl; by rewrite Hdir. }
  split; [done|]. by apply run_raise.
Qed.

(** [ignore_files] given as a mapping: [_set_args] returns a failure
    dict and leaves the mapping, without the defaults, in
    [ignore_files]. *)
Lemma set_args_mapping (task : Task) (self : ActionModule)
    (d : gmap string PyValue) :
  known_args (args task) = true ->
  truthy (arg_files_matching task) = false \/
    re_valid (py_format (arg_files_matching task)) = true ->
  arg_ignore_files task = PyDict d ->
  exists r self',
    _set_args task self = Ok (Some r, self') /\
    failed r = Some true /\
    message r = Some (py_format (PyDict d) +:+ " must be a list") /\
    ignore_files self' = Some (PyDict d).
Proof.
  intros Hk Hfm Hign. unfold _set_args. rewrite (find_known _ Hk), Hign.
  destruct Hfm as [->| ->].
  - simpl. by eexists _, _.
  - destruct (truthy (arg_files_matching task)); simpl; by eexists _, _.
Qed.

End resolver_facts.

(** C5.  An option outside the recognized set: [_set_args] returns the
    failure dict, [run] drops it and raises an [AttributeError] when
    it reads [source_dir], which has not been assigned.  No traversal
    begins, but the invocation does not end with the invalid-option
    failure. *)
Theorem C5_unknown_option_failure_dropped :
  _set_args (host := Fixture.host) Fixture.task_bogus init_self =
    Ok (Some (failure "bogus is not a valid option in debug"), init_self) /\
  run (host := Fixture.host) Fixture.task_bogus [] =
    (Raise (AttributeError "source_dir"), []).
Proof. split; vm_compute; reflexivity. Qed.

(** C6: the claim fails.  The pattern [(] does not compile, and
    argument resolution raises on it. *)
Lemma C6_counterexample :
  MiniRe.valid "(" = false /\
  _set_args (host := Fixture.host) Fixture.task_bad_pattern init_self =
    Raise (ReError "(") /\
  run (host := Fixture.host) Fixture.task_bad_pattern [] =
    (Raise (ReError "("), []).
Proof. split_and!; vm_compute; reflexivity. Qed.

Lemma C6_pattern_compiled_at_resolution_witness :
  (known_args (args Fixture.task_bad_pattern) = true /\
   truthy (args_get "files_matching" PyNone (args Fixture.task_bad_pattern))
     = true /\
   re_valid (Host := Fixture.host)
     (py_format (Host := Fixture.host)
        (args_get "files_matching" PyNone (args Fixture.task_bad_pattern)))
     = false) /\
  _set_args (host := Fixture.host) Fixture.task_bad_pattern init_self =
    Raise (ReError "(") /\
  run (host := Fixture.host) Fixture.task_bad_pattern [] =
    (Raise (ReError "("), []).
Proof.
  split; [split_and!; reflexivity|].
  apply (C6_pattern_compiled_at_resolution (host := Fixture.host)
           Fixture.task_bad_pattern []); reflexivity.
Defined.

(** C8.  [ignore_files] given as a mapping: [_set_args] returns a
    failure dict and leaves the mapping in [ignore_files], without the
    defaults; [run] drops the failure and loads the files, with the
    keys of the mapping as the ignore patterns.  Here [b.yml] is
    ignored and [README.md], which the defaults would ignore, is
    read. *)
Theorem C8_mapping_not_rejected :
  (exists r self,
     _set_args (host := Fixture.host) Fixture.task_ignore_dict init_self =
       Ok (Some r, self) /\
     failed r = Some true /\
     ignore_files self = Some (PyDict {["b.yml" := PyInt 1]})) /\
  run (host := Fixture.host) Fixture.task_ignore_dict [] =
    (Ok {| failed := None; message := None;
           ansible_facts :=
             Some (Flat (<["x" := PyInt 1]> {["y" := PyDict ∅]}));
           _ansible_no_log := Some true |},
     [OpExists (PyStr "vars"); OpWalk (PyStr "vars");
      OpExists (PyStr "vars/README.md"); OpRead "vars/README.md";
      OpExists (PyStr "vars/a.yml"); OpRead "vars/a.yml";
      OpExists (PyStr "vars/b.yml"); OpExists (PyStr "vars/sub/c.yml");
      OpRead "vars/sub/c.yml"]).
Proof.
  split; [|vm_compute; reflexivity].
  eexists _, _. split_and!; [vm_compute; reflexivity|done|done].
Qed.

(** C9: the claim fails.  Without [dir] and with a pattern that does
    not compile, resolution raises the error of [re.compile], not the
    missing-directory error. *)
Lemma C9_counterexample :
  args_get "dir" PyNone (args Fixture.task_no_dir_bad_pattern) = PyNone /\
  _set_args (host := Fixture.host) Fixture.task_no_dir_bad_pattern init_self =
    Raise (ReError "(") /\
  ~ exists msg,
      _set_args (host := Fixture.host) Fixture.task_no_dir_bad_pattern
        init_self = Raise (AnsibleError msg).
Proof.
  split_and!; [vm_compute; reflexivity..|].
  intros [msg E]. vm_compute in E. discriminate E.
Qed.

Lemma C9_missing_directory_witness :
  (known_args (args Fixture.task_no_dir) = true /\
   (truthy (args_get "files_matching" PyNone (args Fixture.task_no_dir))
      = false \/
    re_valid (Host := Fixture.host)
      (py_format (Host := Fixture.host)
         (args_get "files_matching" PyNone (args Fixture.task_no_dir)))
      = true) /\
   is_str_or_list
     (args_get "ignore_files" (PyList []) (args Fixture.task_no_dir))
     = true /\
   truthy (args_get "dir" PyNone (args Fixture.task_no_dir)) = false) /\
  _set_args (host := Fixture.host) Fixture.task_no_dir init_self =
    Raise (AnsibleError (no_directory_msg +:+ "include_vars_dir")) /\
  run (host := Fixture.host) Fixture.task_no_dir [] =
    (Raise (AnsibleError (no_directory_msg +:+ "include_vars_dir")), []).
Proof.
  split; [split_and!; (reflexivity || (left; reflexivity))|].
  apply (C9_missing_directory (host := Fixture.host) Fixture.task_no_dir []);
    (reflexivity || (left; reflexivity)).
Defined.

(** ** The file merger *)

Lemma bind_ret {A B} (a : A) (k : A -> M B) (log : list FsOp) :
  bind (ret a) k log = k a log.
Proof. done. Qed.

Lemma bind_lift_ok {A B} (a : A) (k : A -> M B) (log : list FsOp) :
  bind (lift (Ok a)) k log = k a log.
Proof. done. Qed.

Lemma bind_lift_raise {A B} (e : exn) (k : A -> M B) (log : list FsOp) :
  bind (lift (Raise e)) k log = (Raise e, log).
Proof. done. Qed.

Lemma bind_access_ok {A B} (op : FsOp) (a : A) (k : A -> M B)
    (log : list FsOp) :
  bind (access op (Ok a)) k log = k a (log ++ [op]).
Proof. done. Qed.

Lemma bind_access_raise {A B} (op : FsOp) (e : exn) (k : A -> M B)
    (log : list FsOp) :
  bind (access op (Raise e)) k log = (Raise e, log ++ [op]).
Proof. done. Qed.

Lemma bind_assoc {A B C} (m : M A) (k1 : A -> M B) (k2 : B -> M C)
    (log : list FsOp) :
  bind (bind m k1) k2 log = bind m (fun a => bind (k1 a) k2) log.
Proof. unfold bind. by destruct (m log) as [[a|e] log']. Qed.

Lemma bind_framed {A B} (m : M A) (k : A -> M B) (log : list FsOp) :
  framed m ->
  bind m k log =
    match (m []).1 with
    | Ok a => k a (log ++ (m []).2)
    | Raise e => (Raise e, log ++ (m []).2)
    end.
Proof.
  intros Hm. unfold bind. rewrite (Hm log).
  by destruct (m []) as [[a|e] ops].
Qed.

(** A computation from a log, read back from the empty log. *)
Lemma framed_inv {A} (m : M A) (r : res A) (log ops : list FsOp) :
  framed m -> m log = (r, ops) ->
  exists ops', m [] = (r, ops') /\ ops = log ++ ops'.
Proof.
  intros Hm E. rewrite (Hm log) in E. injection E as <- <-.
  exists (m []).2. split; [|done]. by destruct (m []).
Qed.

Section merger_facts.
Context `{host : Host}.

Local Arguments path_join : simpl never.

Lemma reads_app (l1 l2 : list FsOp) : reads (l1 ++ l2) = reads l1 ++ reads l2.
Proof. apply omap_app. Qed.

Lemma reads_cons (op : FsOp) (l : list FsOp) :
  reads (op :: l) =
    match op with OpRead p => p :: reads l | _ => reads l end.
Proof. by destruct op. Qed.

Ltac reads_simpl :=
  repeat (rewrite reads_app || rewrite reads_cons); simpl.

Lemma load_one_framed (p : string) (st : LoadState) : framed (load_one p st).
Proof.
  unfold load_one. apply framed_bind; [auto with framed|].
  intros [raw show]. apply framed_bind; auto with framed.
Qed.

Lemma load_loop_framed (task : Task) (root : string) (files : list string)
    (st : LoadState) :
  framed (load_loop task root files st).
Proof.
  revert st. induction files as [|f files IH]; intros st; simpl.
  { auto with framed. }
  apply framed_if; [done|].
  apply framed_bind; [auto with framed|]. intros stop.
  apply framed_if; [|done].
  apply framed_bind; [auto with framed|]. intros there.
  apply framed_bind.
  { apply framed_if; [|auto with framed].
    apply framed_bind; auto with framed. }
  intros load. apply framed_bind; [|done].
  apply framed_if; [apply load_one_framed|auto with framed].
Qed.

Lemma load_files_framed (task : Task) (self : ActionModule) (root : string)
    (files : list string) :
  framed (_load_files task self root files).
Proof. apply load_loop_framed. Qed.

Lemma run_loop_framed (task : Task) (entries : list (string * list string))
    (st : RunState) :
  framed (run_loop task entries st).
Proof.
  revert st. induction entries as [|[root files] entries IH]; intros st;
    simpl.
  { auto with framed. }
  apply framed_bind; [apply load_files_framed|]. intros ls.
  apply framed_if; [done|auto with framed].
Qed.

Lemma run_framed (task : Task) : framed (run task).
Proof.
  unfold run. apply framed_bind; [auto with framed|]. intros [r self].
  apply framed_bind; [auto with framed|]. intros self'.
  apply framed_bind; [auto with framed|]. intros dir.
  apply framed_bind; [auto with framed|]. intros there.
  apply framed_if; [|auto with framed].
  apply framed_bind; [apply traverse_framed|]. intros entries.
  apply framed_bind; [apply run_loop_framed|]. intros st.
  repeat (apply framed_bind; [auto with framed|intros ?]).
  auto with framed.
Qed.

Lemma load_one_eq (p : string) (st : LoadState) :
  load_one p st [] =
    match loaded p with
    | Ok (v, show) => (Ok (absorb st p v show), [OpRead p])
    | Raise e => (Raise e, [OpRead p])
    end.
Proof.
  unfold load_one, loaded, bind, access, lift, ret. simpl.
  destruct (get_file_contents p) as [[raw show]|e]; simpl; [|done].
  by destruct (loader_load raw show).
Qed.

Lemma load_loop_cons (task : Task) (root f : string) (files : list string)
    (st : LoadState) :
  load_loop task root (f :: files) st =
    if bool_decide (is_Some (_role task)) && String.eqb f "main.yml"
    then load_loop task root files st
    else
      (do! stop_iter := lift (not_matching (ls_self st) f) in
       if negb stop_iter && negb (ls_failed st) then
         do! there := access (OpExists (PyStr (path_join root [f])))
                             (fs_exists (PyStr (path_join root [f]))) in
         do! load :=
           (if there : bool then
              do! ign := lift (_ignore_file (ls_self st) f) in
              ret (negb ign)
            else ret false) in
         do! st' := (if load : bool then load_one (path_join root [f]) st
                     else ret st) in
         load_loop task root files st'
       else load_loop task root files st)%M.
Proof. done. Qed.

(** The loop of [_load_files] reads a subsequence of the files of the
    directory, each from a state that has not failed, and ends in the
    state that these reads give. *)
Lemma load_loop_replay (task : Task) (root : string) (files : list string) :
  forall (st st' : LoadState) (log ops : list FsOp),
    load_loop task root files st log = (Ok st', ops) ->
    exists ops',
      ops = log ++ ops' /\
      read_seq (reads ops') st /\
      st' = replay (reads ops') st /\
      sublist (reads ops') ((fun f => path_join root [f]) <$> files).
Proof.
  induction files as [|f files IH]; intros st st' log ops.
  { simpl. unfold ret. intros [= <- <-]. exists [].
    rewrite app_nil_r. split_and!; [done|done|done|constructor]. }
  assert (Hskip : forall log1,
    load_loop task root files st (log ++ log1) = (Ok st', ops) ->
    reads log1 = [] ->
    exists ops',
      ops = log ++ ops' /\
      read_seq (reads ops') st /\
      st' = replay (reads ops') st /\
      sublist (reads ops') ((fun f => path_join root [f]) <$> f :: files)).
  { intros log1 (ops' & -> & ? & ? & ?)%IH Hr. exists (log1 ++ ops').
    rewrite reads_app, Hr, app_assoc. simpl.
    split_and!; [done|done|done|by apply sublist_cons]. }
  rewrite load_loop_cons.
  destruct (bool_decide (is_Some (_role task)) && String.eqb f "main.yml").
  { intros E. apply (Hskip []); [by rewrite app_nil_r|done]. }
  destruct (not_matching (ls_self st) f) as [stop|e];
    [rewrite bind_lift_ok|by rewrite bind_lift_raise].
  destruct (negb stop && negb (ls_failed st)) eqn:Hgo.
  2: { intros E. apply (Hskip []); [by rewrite app_nil_r|done]. }
  apply andb_true_iff in Hgo as [_ Hnf%negb_true_iff].
  destruct (fs_exists (PyStr (path_join root [f]))) as [there|e];
    [rewrite bind_access_ok|by rewrite bind_access_raise].
  destruct there; cbv iota.
  2: { rewrite !bind_ret. intros E. by eapply Hskip. }
  rewrite bind_assoc.
  destruct (_ignore_file (ls_self st) f) as [ign|e];
    [rewrite bind_lift_ok, bind_ret|by rewrite bind_lift_raise].
  destruct ign; simpl negb; cbv iota.
  { rewrite bind_ret. intros E. by eapply Hskip. }
  rewrite (bind_framed _ _ _ (load_one_framed _ st)), load_one_eq.
  destruct (loaded (path_join root [f])) as [[v show]|e] eqn:Hl; simpl;
    [|done].
  intros (ops' & -> & Hseq & Hst & Hsub)%IH.
  assert (Ha : absorb_file st (path_join root [f])
               = absorb st (path_join root [f]) v show).
  { unfold absorb_file. by rewrite Hl. }
  exists ([OpExists (PyStr (path_join root [f])); OpRead (path_join root [f])]
          ++ ops').
  reads_simpl. split_and!.
  - by rewrite <- !app_assoc.
  - done.
  - by eexists _, _.
  - by rewrite Ha.
  - unfold replay. simpl. by rewrite Ha.
  - by apply sublist_skip.
Qed.

Lemma set_show_content_twice (self : ActionModule) (b1 b2 : bool) :
  set_show_content (set_show_content self b1) b2 = set_show_content self b2.
Proof. done. Qed.

Lemma set_show_content_id (self : ActionModule) :
  set_show_content self (show_content self) = self.
Proof. by destruct self. Qed.

Lemma merge_files_app (ps1 ps2 : list string) (acc : gmap string PyValue) :
  merge_files (ps1 ++ ps2) acc = merge_files ps2 (merge_files ps1 acc).
Proof. apply foldl_app. Qed.

Lemma merge_files_union (ps : list string) (a acc : gmap string PyValue) :
  merge_files ps a ∪ acc = merge_files ps (a ∪ acc).
Proof.
  revert a. induction ps as [|p ps IH]; intros a; simpl; [done|].
  by rewrite IH, (assoc_L (∪)).
Qed.

(** What a sequence of reads makes of a state that has not failed:
    either every file is a mapping and the results are their merge, or
    the last file read is not a mapping and the message names it. *)
Lemma replay_props (ps : list string) :
  forall st : LoadState,
    read_seq ps st -> ls_failed st = false ->
    ls_self (replay ps st) =
      set_show_content (ls_self st)
        (show_content (ls_self st) && forallb file_flag ps) /\
    ((ls_failed (replay ps st) = false /\
      Forall (fun p => file_is_mapping p = true) ps /\
      ls_results (replay ps st) = merge_files ps (ls_results st) /\
      ls_err_msg (replay ps st) = ls_err_msg st) \/
     (ls_failed (replay ps st) = true /\
      exists l p,
        ps = l ++ [p] /\
        Forall (fun q => file_is_mapping q = true) l /\
        file_is_mapping p = false /\
        ls_err_msg (replay ps st) = not_a_dict_msg p)).
Proof.
  induction ps as [|p ps IH]; intros st Hseq Hnf.
  { simpl. rewrite andb_true_r, set_show_content_id.
    split; [done|]. left. by split_and!. }
  destruct Hseq as (_ & (v & show & Hl) & Hseq).
  assert (Ha : absorb_file st p = absorb st p v show).
  { unfold absorb_file. by rewrite Hl. }
  assert (Hflag : file_flag p = show).
  { unfold file_flag. by rewrite Hl. }
  assert (Hself : ls_self (absorb st p v show) =
                  set_show_content (ls_self st)
                    (show_content (ls_self st) && show)).
  { unfold absorb.
    destruct show, v as [| | | | |d]; simpl;
      rewrite ?andb_true_r, ?andb_false_r, ?set_show_content_id; done. }
  change (replay (p :: ps) st) with (replay ps (absorb_file st p)).
  rewrite Ha in Hseq |- *.
  destruct (is_mapping v) eqn:Hv.
  - assert (Hst1 : ls_failed (absorb st p v show) = false /\
                   ls_results (absorb st p v show)
                     = file_dict p ∪ ls_results st /\
                   ls_err_msg (absorb st p v show) = ls_err_msg st).
    { unfold file_dict. rewrite Hl.
      destruct v as [| | | | |d]; try done. }
    destruct Hst1 as (Hf1 & Hr1 & He1).
    destruct (IH _ Hseq Hf1) as [Hs Hcases]. split.
    { rewrite Hs, Hself, set_show_content_twice. simpl.
      by rewrite Hflag, andb_assoc. }
    assert (Hp : file_is_mapping p = true).
    { unfold file_is_mapping. by rewrite Hl. }
    destruct Hcases as [(Hf & Hall & Hres & Herr)
                       |(Hf & l & q & -> & Hall & Hq & Herr)].
    + left. split_and!; [done|by constructor| |congruence].
      simpl. by rewrite Hres, Hr1.
    + right. split; [done|]. exists (p :: l), q.
      split_and!; [done|by constructor|done|done].
  - assert (Hst1 : ls_failed (absorb st p v show) = true /\
                   ls_err_msg (absorb st p v show) = not_a_dict_msg p).
    { unfold absorb, not_a_dict_msg. rewrite py_format_str.
      destruct v as [| | | | |d]; try done. }
    destruct Hst1 as (Hf1 & He1).
    destruct ps as [|q ps].
    2: { destruct Hseq as (Hf & _). congruence. }
    simpl. split.
    { rewrite Hself. by rewrite Hflag, andb_true_r. }
    right. split; [done|]. exists [], p.
    assert (Hp : file_is_mapping p = false).
    { unfold file_is_mapping. by rewrite Hl. }
    by split_and!.
Qed.

Lemma candidates_cons (root : string) (files : list string)
    (entries : list (string * list string)) :
  candidates ((root, files) :: entries) =
    ((fun f => path_join root [f]) <$> files) ++ candidates entries.
Proof. done. Qed.

(** The loop of [run]: the reads follow the order of the yielded
    directories and of their files; either every file read is a
    mapping and the results are the merge of the files in the order
    of the reads, or the last file read is not a mapping and the
    result carries the failure that names it. *)
Lemma run_loop_spec (task : Task) (entries : list (string * list string)) :
  forall (st st' : RunState) (log ops : list FsOp),
    run_loop task entries st log = (Ok st', ops) ->
    exists ops',
      ops = log ++ ops' /\
      sublist (reads ops') (candidates entries) /\
      rs_self st' =
        set_show_content (rs_self st)
          (show_content (rs_self st) && forallb file_flag (reads ops')) /\
      ((rs_result st' = rs_result st /\
        Forall (fun p => file_is_mapping p = true) (reads ops') /\
        rs_results st' = merge_files (reads ops') (rs_results st)) \/
       (exists l p,
          reads ops' = l ++ [p] /\
          Forall (fun q => file_is_mapping q = true) l /\
          file_is_mapping p = false /\
          rs_result st' =
            set_failure (rs_result st) true (not_a_dict_msg p))).
Proof.
  induction entries as [|[root files] entries IH]; intros st st' log ops.
  { simpl. unfold ret. intros [= <- <-]. exists [].
    rewrite app_nil_r. simpl. rewrite andb_true_r, set_show_content_id.
    split_and!; [done|constructor|done|]. left. by split_and!. }
  cbn [run_loop]. unfold bind at 1. unfold _load_files.
  destruct (load_loop task root files _ log) as [[ls|e] log1] eqn:E; [|done].
  apply load_loop_replay in E as (ops1 & -> & Hseq & -> & Hsub).
  destruct (replay_props _ _ Hseq eq_refl) as [Hself Hcases].
  simpl in Hself, Hcases.
  set (ls := replay (reads ops1) _) in *.
  destruct Hcases as [(Hf & Hall & Hres & _)
                     |(Hf & l & p & Hps & Hall & Hp & Herr)];
    rewrite Hf; cbn [negb].
  - intros (ops2 & -> & Hsub2 & Hself2 & Hcases2)%IH.
    simpl in Hself2, Hcases2.
    exists (ops1 ++ ops2). rewrite candidates_cons. reads_simpl.
    split_and!.
    + by rewrite app_assoc.
    + by apply sublist_app.
    + rewrite Hself2, Hself, set_show_content_twice. simpl.
      by rewrite forallb_app, andb_assoc.
    + destruct Hcases2 as [(Hr & Hall2 & Hres2)
                          |(l & p & Hps & Hall2 & Hp & Hr)].
      * left. split_and!; [done|by apply Forall_app|].
        rewrite Hres2, Hres, merge_files_union, (left_id_L ∅ (∪)).
        by rewrite merge_files_app.
      * right. exists (reads ops1 ++ l), p.
        split_and!; [by rewrite Hps, app_assoc|by apply Forall_app
                    |done|done].
  - unfold ret. intros [= <- <-]. exists ops1. rewrite candidates_cons.
    split_and!; [done|by apply sublist_inserts_r|done|].
    right. exists l, p. simpl. by rewrite Herr.
Qed.

(** The steps of a call of [run] that returns a result. *)
Lemma run_ok_inv (task : Task) (result : Result) (log : list FsOp) :
  run task [] = (Ok result, log) ->
  exists r self self' dir there,
    _set_args task init_self = Ok (r, self) /\
    role_source_dir task self = Ok self' /\
    source_dir self' = Some dir /\
    fs_exists dir = Ok there /\
    if there : bool then
      exists walked d entries st ops name facts,
        fs_walk dir = Ok walked /\
        depth self' = Some d /\
        traverse_loop d 0 (sort_by (fun e => e.1.1) walked) = Ok entries /\
        run_loop task entries
          {| rs_results := ∅; rs_result := empty_result; rs_self := self' |}
          [] = (Ok st, ops) /\
        log = [OpExists dir; OpWalk dir] ++ ops /\
        return_results_as_name (rs_self st) = Some name /\
        finalize name (rs_results st) = Ok facts /\
        result = set_facts (rs_result st) facts (show_content (rs_self st))
    else
      log = [OpExists dir] /\
      result = set_failure empty_result true
                 (py_format dir +:+ " directory does not exist").
Proof.
  unfold run.
  destruct (_set_args task init_self) as [[r self]|e] eqn:Hset;
    [rewrite bind_lift_ok|by rewrite bind_lift_raise].
  destruct (role_source_dir task self) as [self'|e] eqn:Hrole;
    [rewrite bind_lift_ok|by rewrite bind_lift_raise].
  destruct (source_dir self') as [dir|] eqn:Hdir; simpl attr;
    [rewrite bind_lift_ok|by rewrite bind_lift_raise].
  destruct (fs_exists dir) as [there|e] eqn:Hex;
    [rewrite bind_access_ok|by rewrite bind_access_raise].
  intros E. exists r, self, self', dir, there. split_and!; try done.
  destruct there.
  2: { unfold ret in E. by injection E as <- <-. }
  unfold _traverse_dir_depth in E. rewrite Hdir in E. simpl attr in E.
  rewrite !bind_assoc, bind_lift_ok in E. rewrite bind_assoc in E.
  destruct (fs_walk dir) as [walked|e] eqn:Hwalk;
    [rewrite bind_access_ok in E|by rewrite bind_access_raise in E].
  rewrite bind_assoc in E.
  destruct (depth self') as [d|] eqn:Hd; simpl attr in E;
    [rewrite bind_lift_ok in E|by rewrite bind_lift_raise in E].
  destruct (traverse_loop d 0 _) as [entries|e] eqn:Htr;
    [rewrite bind_lift_ok in E|by rewrite bind_lift_raise in E].
  unfold bind at 1 in E.
  destruct (run_loop task entries _ _) as [[st|e] log1] eqn:Hloop; [|done].
  apply (framed_inv _ _ _ _ (run_loop_framed _ _ _)) in Hloop
    as (ops & Hloop & ->).
  destruct (return_results_as_name (rs_self st)) as [name|] eqn:Hname;
    simpl attr in E;
    [rewrite bind_lift_ok in E|by rewrite bind_lift_raise in E].
  destruct (finalize name (rs_results st)) as [facts|e] eqn:Hfin;
    [rewrite bind_lift_ok in E|by rewrite bind_lift_raise in E].
  unfold ret in E. injection E as <- <-.
  exists walked, d, entries, st, ops, name, facts. by split_and!.
Qed.

End merger_facts.

(** ** The order of the traversal *)

Section traversal_facts.

Local Arguments path_join : simpl never.

Lemma traversal_paths (walked : list (string * list string * list string)) :
  traversal walked =
    (fun rf => path_join rf.1 [rf.2]) <$> traversal_pairs walked.
Proof.
  unfold traversal, traversal_pairs, candidates.
  induction (sort_by (fun e => e.1.1) walked) as [|e l IH]; simpl; [done|].
  rewrite fmap_app, <- IH, <- list_fmap_compose. reflexivity.
Qed.

Lemma pairs_of_sorted (l : list (string * list string * list string)) :
  StronglySorted (key_le (fun e => e.1.1)) l ->
  NoDup ((fun e => e.1.1) <$> l) ->
  StronglySorted pair_le
    (flat_map (fun e => (fun f => (e.1.1, f)) <$> sort_strings e.2) l).
Proof.
  induction 1 as [|e l Hl IH He]; simpl; [constructor|].
  rewrite NoDup_cons. intros [Hne Hnd].
  apply StronglySorted_app; split_and!; [| |by apply IH].
  - intros x y [f [-> Hf]]%list_elem_of_fmap Hy.
    apply list_elem_of_In, in_flat_map in Hy as [e' [He' Hy]].
    apply list_elem_of_In, list_elem_of_fmap in Hy as [f' [-> Hf']].
    apply list_elem_of_In in He'. left. simpl. split.
    + intros Heq. apply Hne. rewrite Heq.
      apply list_elem_of_fmap. by exists e'.
    + rewrite Forall_forall in He. by apply He.
  - pose proof (sort_by_sorted id (e.2)) as Hs. fold (sort_strings e.2) in Hs.
    induction Hs as [|f fs _ IHs Hf]; simpl; constructor; [done|].
    apply Forall_fmap. eapply Forall_impl; [exact Hf|].
    intros f' Hle. right. by split.
Qed.

(** The (directory, file name) pairs of the traversal are in
    lexicographic order when the walk lists each directory once. *)
Lemma traversal_pairs_sorted
    (walked : list (string * list string * list string)) :
  NoDup ((fun e => e.1.1) <$> walked) ->
  StronglySorted pair_le (traversal_pairs walked).
Proof.
  intros Hnd. apply pairs_of_sorted; [apply sort_by_sorted|].
  by rewrite (sort_by_Permutation (fun e => e.1.1) walked).
Qed.

Lemma sublist_fmap_inv {A B} (f : A -> B) (l : list B) (k : list A) :
  sublist l (f <$> k) -> exists k', l = f <$> k' /\ sublist k' k.
Proof.
  revert l. induction k as [|x k IH]; intros l Hs; simpl in Hs.
  { apply sublist_nil_r in Hs as ->. by exists []. }
  apply sublist_cons_r in Hs as [Hs|(l' & -> & Hs)].
  - apply IH in Hs as (k' & -> & Hk). exists k'.
    split; [done|by apply sublist_cons].
  - apply IH in Hs as (k' & -> & Hk). exists (x :: k').
    split; [done|by apply sublist_skip].
Qed.

Lemma sorted_sublist {A} (R : A -> A -> Prop) (l k : list A) :
  sublist l k -> StronglySorted R k -> StronglySorted R l.
Proof.
  induction 1 as [|x l k Hs IH|x l k Hs IH]; intros Hk; [done| |].
  - apply StronglySorted_inv in Hk as [Hk Hx]. constructor; [by apply IH|].
    rewrite Forall_forall in Hx |- *. intros y Hy. apply Hx.
    eapply elem_of_submseteq; [exact Hy|by apply sublist_submseteq].
  - apply StronglySorted_inv in Hk as [Hk _]. by apply IH.
Qed.

Lemma flat_map_sorted_files
    (l : list (string * list string * list string)) :
  flat_map (fun e => (fun f => (e.1.1, f)) <$> sort_strings e.2) l ≡ₚ
  flat_map (fun e => (fun f => (e.1.1, f)) <$> e.2) l.
Proof.
  induction l as [|e l IH]; simpl; [done|].
  apply Permutation_app; [|done].
  apply fmap_Permutation. apply (sort_by_Permutation id).
Qed.

(** The pairs of the traversal are files that the walk lists. *)
Lemma traversal_pairs_walk
    (walked : list (string * list string * list string))
    (rf : string * string) :
  rf ∈ traversal_pairs walked ->
  exists dirs files, (rf.1, dirs, files) ∈ walked /\ rf.2 ∈ files.
Proof.
  unfold traversal_pairs. rewrite flat_map_sorted_files.
  rewrite (Permutation_flat_map _ (sort_by_Permutation (fun e => e.1.1) walked)).
  intros Hin. apply list_elem_of_In, in_flat_map in Hin as [[[root dirs] files] [He Hin]].
  apply list_elem_of_In, list_elem_of_fmap in Hin as [f [-> Hf]].
  exists dirs, files. split; [by apply list_elem_of_In|done].
Qed.

(** The pairs of the traversal go by the order of the directories. *)
Lemma traversal_pairs_roots
    (walked : list (string * list string * list string)) :
  StronglySorted root_le (traversal_pairs walked).
Proof.
  unfold traversal_pairs.
  pose proof (sort_by_sorted (fun e : string * list string * list string
                                => e.1.1) walked) as Hs.
  induction Hs as [|e l Hl IH He]; simpl; [constructor|].
  apply StronglySorted_app; split_and!; [| |done].
  - intros x y [f [-> Hf]]%list_elem_of_fmap Hy.
    apply list_elem_of_In, in_flat_map in Hy as [e' [He' Hy]].
    apply list_elem_of_In, list_elem_of_fmap in Hy as [f' [-> Hf']].
    apply list_elem_of_In in He'. rewrite Forall_forall in He.
    by apply He.
  - induction (sort_strings e.2) as [|f fs IHf]; simpl; constructor; [done|].
    apply Forall_fmap, Forall_forall. intros f' _. unfold root_le. simpl.
    by destruct (String.leb_total e.1.1 e.1.1).
Qed.

End traversal_facts.

(** ** The result of an invocation *)

Section run_facts.
Context `{host : Host}.

Lemma merge_files_dom (ps : list string) (acc : gmap string PyValue)
    (k : string) :
  k ∈ dom (merge_files ps acc) <->
  k ∈ dom acc \/ exists p, p ∈ ps /\ k ∈ dom (file_dict p).
Proof.
  revert acc. induction ps as [|p ps IH]; intros acc; simpl.
  { split; [by left|]. intros [?|(p & Hp & _)]; [done|].
    by apply elem_of_nil in Hp. }
  rewrite IH, dom_union_L, elem_of_union. split.
  - intros [[Hk|Hk]|(q & Hq & Hk)]; [right|by left|right].
    + exists p. split; [by left|done].
    + exists q. split; [by right|done].
  - intros [Hk|(q & Hq & Hk)]; [left; by right|].
    apply elem_of_cons in Hq as [->|Hq]; [left; by left|].
    right. by exists q.
Qed.

Lemma merge_files_absent (ps : list string) (acc : gmap string PyValue)
    (k : string) :
  (forall q, q ∈ ps -> k ∉ dom (file_dict q)) ->
  merge_files ps acc !! k = acc !! k.
Proof.
  revert acc. induction ps as [|p ps IH]; intros acc Hno; simpl; [done|].
  rewrite IH.
  2: { intros q Hq. apply Hno. by right. }
  apply lookup_union_r, not_elem_of_dom, Hno. by left.
Qed.

(** The value of a key is the value that the last file with the key
    gives it. *)
Lemma merge_files_last (l1 l2 : list string) (p : string)
    (acc : gmap string PyValue) (k : string) :
  k ∈ dom (file_dict p) ->
  (forall q, q ∈ l2 -> k ∉ dom (file_dict q)) ->
  merge_files (l1 ++ p :: l2) acc !! k = file_dict p !! k.
Proof.
  intros [v Hv]%elem_of_dom Hno.
  rewrite merge_files_app. simpl. rewrite merge_files_absent by done.
  rewrite Hv. by apply lookup_union_Some_l.
Qed.

Lemma traverse_loop_prefix (d : PyValue) :
  forall (c : Z) (l : list (string * list string * list string))
         (entries : list (string * list string)),
    traverse_loop d c l = Ok entries ->
    exists m, entries = yielded <$> take m l.
Proof.
  intros c l. revert c.
  induction l as [|[[root dirs] files] l IH]; intros c entries; simpl.
  { intros [= <-]. by exists O. }
  destruct (within_depth (c + 1) d) as [[|]|e]; simpl; [| |done].
  - destruct (traverse_loop d (c + 1) l) as [more|e] eqn:E; simpl; [|done].
    intros [= <-]. apply IH in E as [m ->]. by exists (S m).
  - intros [= <-]. by exists O.
Qed.

Lemma candidates_prefix (m : nat)
    (l : list (string * list string * list string)) :
  sublist (candidates (yielded <$> take m l)) (candidates (yielded <$> l)).
Proof.
  rewrite <- (take_drop m l) at 2. rewrite fmap_app.
  unfold candidates. rewrite flat_map_app. by apply sublist_inserts_r.
Qed.

Lemma set_args_show_content (task : Task) (self0 self : ActionModule)
    (r : option Result) :
  _set_args task self0 = Ok (r, self) ->
  show_content self = show_content self0.
Proof.
  unfold _set_args.
  destruct (find _ (args task)) as [[arg v]|]; [by intros [= <- <-]|].
  destruct (truthy (args_get "files_matching" PyNone (args task)));
    [destruct (re_valid _); [|done]|]; simpl;
    (destruct (args_get "ignore_files" (PyList []) (args task));
     simpl; try done;
     try (destruct (truthy (args_get "dir" PyNone (args task)));
          simpl; [|done]);
     by intros [= <- <-]).
Qed.

Lemma role_source_dir_show_content (task : Task)
    (self self' : ActionModule) :
  role_source_dir task self = Ok self' ->
  show_content self' = show_content self.
Proof.
  unfold role_source_dir. destruct (_role task) as [role|];
    [|by intros [= <-]].
  destruct (source_dir self) as [dir|]; simpl; [|done].
  destruct (py_eq_str dir "vars");
    (destruct (py_path_join _ _); simpl; [|done]); by intros [= <-].
Qed.

(** The result of a call of [run] on a directory that exists. *)
Lemma run_exists_inv (task : Task) (result : Result) (log : list FsOp) :
  run task [] = (Ok result, log) ->
  is_Some (ansible_facts result) ->
  exists dir walked merged facts,
    log !! 1%nat = Some (OpWalk dir) /\
    fs_walk dir = Ok walked /\
    sublist (reads log) (traversal walked) /\
    ansible_facts result = Some facts /\
    (facts = Flat merged \/ exists name, facts = Scoped name merged) /\
    _ansible_no_log result = Some (forallb file_flag (reads log)) /\
    ((failed result = None /\ message result = None /\
      Forall (fun p => file_is_mapping p = true) (reads log) /\
      merged = merge_files (reads log) ∅) \/
     (exists l p,
        reads log = l ++ [p] /\
        Forall (fun q => file_is_mapping q = true) l /\
        file_is_mapping p = false /\
        failed result = Some true /\
        message result = Some (not_a_dict_msg p))).
Proof.
  intros (r & self & self' & dir & there & Hset & Hrole & Hdir & Hex & H)
    %run_ok_inv Hfacts.
  destruct there.
  2: { destruct H as [_ ->]. by destruct Hfacts. }
  destruct H as (walked & d & entries & st & ops & name & facts & Hwalk & Hd
                 & Htr & Hloop & -> & Hname & Hfin & ->).
  apply run_loop_spec in Hloop as (ops' & -> & Hsub & Hself & Hcases).
  simpl in Hself, Hcases. apply traverse_loop_prefix in Htr as [m ->].
  exists dir, walked, (rs_results st), facts.
  assert (Hreads : reads ([OpExists dir; OpWalk dir] ++ [] ++ ops')
                   = reads ops') by done.
  rewrite Hreads. split_and!; try done.
  - etrans; [exact Hsub|apply candidates_prefix].
  - unfold finalize in Hfin.
    destruct (truthy name); [|left; congruence].
    destruct (hashable name); [|done]. right. exists name. congruence.
  - simpl. rewrite Hself. simpl.
    rewrite (role_source_dir_show_content _ _ _ Hrole).
    by rewrite (set_args_show_content _ _ _ _ Hset).
  - destruct Hcases as [(-> & Hall & Hres)|(l & p & Hps & Hall & Hp & ->)].
    + left. by split_and!.
    + right. exists l, p. by split_and!.
Qed.

(** A result has a message exactly when it has [failed = true], and
    a result without [ansible_facts] has a message. *)
Lemma run_result_shape (task : Task) (result : Result) (log : list FsOp) :
  run task [] = (Ok result, log) ->
  (failed result = Some true <-> is_Some (message result)) /\
  (is_Some (ansible_facts result) \/ is_Some (message result)).
Proof.
  intros Hrun.
  destruct (ansible_facts result) as [facts|] eqn:Hfacts.
  - destruct (run_exists_inv task result log Hrun) as
      (dir & walked & merged & facts' & _ & _ & _ & _ & _ & _ & Hcases).
    { by rewrite Hfacts. }
    destruct Hcases as [(Hf & Hm & _)|(l & q & _ & _ & _ & Hf & Hm)];
      rewrite Hf, Hm; (split; [|by left]); [|done].
    split; [done|]. by intros [? ?].
  - apply run_ok_inv in Hrun
      as (r & self & self' & dir & there & _ & _ & _ & _ & H).
    destruct there.
    { destruct H as (? & ? & ? & ? & ? & ? & ? & _ & _ & _ & _ & _ & _ & _
                     & ->). done. }
    destruct H as [-> ->]. simpl. split; [done|by right].
Qed.

(** C1, as amended.  A call that returns has [failed = true] exactly
    when it has a message, and has [ansible_facts] or a message.  When
    a file that was read holds neither a mapping nor nothing, the
    result has [failed = true] and the message that starts with the
    path of that file, and it has [ansible_facts] too: the failure
    does not remove the facts. *)
Theorem C1_failure_keeps_facts (task : Task) (result : Result)
    (log : list FsOp) :
  run task [] = (Ok result, log) ->
  (failed result = Some true <-> is_Some (message result)) /\
  (is_Some (ansible_facts result) \/ is_Some (message result)) /\
  (forall p,
     p ∈ reads log -> file_is_mapping p = false ->
     failed result = Some true /\
     message result = Some (not_a_dict_msg p) /\
     is_Some (ansible_facts result)).
Proof.
  intros Hrun.
  destruct (run_result_shape task result log Hrun) as [Hfm Hsome].
  split_and!; [done|done|].
  intros p Hp Hno.
  assert (Hfacts : is_Some (ansible_facts result)).
  { destruct (ansible_facts result) eqn:Hfacts; [done|].
    apply run_ok_inv in Hrun
      as (r & self & self' & dir & there & _ & _ & _ & _ & H).
    destruct there.
    { destruct H as (? & ? & ? & ? & ? & ? & ? & _ & _ & _ & _ & _ & _ & _
                     & ->). done. }
    destruct H as [-> _]. by apply elem_of_nil in Hp. }
  destruct (run_exists_inv task result log Hrun Hfacts)
    as (dir & walked & merged & facts & _ & _ & _ & _ & _ & _ & Hcases).
  rewrite Forall_forall in Hcases.
  destruct Hcases as [(_ & _ & Hall & _)|(l & q & Hps & Hall & Hq & Hf & Hm)].
  - rewrite (Hall p Hp) in Hno. done.
  - rewrite Hps in Hp. apply elem_of_app in Hp as [Hp|Hp].
    + rewrite Forall_forall in Hall. rewrite (Hall p Hp) in Hno. done.
    + apply list_elem_of_singleton in Hp as ->. by split_and!.
Qed.

(** [_ansible_no_log] holds the value of [show_content]: it is true
    when every file read may be shown. *)
Lemma run_no_log (task : Task) (result : Result) (log : list FsOp) :
  run task [] = (Ok result, log) ->
  is_Some (ansible_facts result) ->
  _ansible_no_log result = Some (forallb file_flag (reads log)).
Proof.
  intros Hrun Hfacts.
  by destruct (run_exists_inv task result log Hrun Hfacts)
    as (? & ? & ? & ? & _ & _ & _ & _ & _ & ? & _).
Qed.

(** C3.  When no file fails, the merged mapping is the merge of the
    files read, in the order of the reads.  The files read are files
    that the walk lists, each read as its directory joined with its
    name, and they are read in the sorted order of the (directory,
    file name) pairs: by the path of the directory and, when the walk
    lists each directory once, lexicographically by directory and
    name.  Every file read holds a mapping; the keys of the merged
    mapping are the keys of these files, and the value of a key is
    the value that the last file with this key gives it, whole. *)
Theorem C3_last_writer_wins (task : Task) (result : Result)
    (log : list FsOp) :
  run task [] = (Ok result, log) ->
  failed result = None ->
  exists dir walked merged pairs,
    (ansible_facts result = Some (Flat merged) \/
     exists name, ansible_facts result = Some (Scoped name merged)) /\
    log !! 1%nat = Some (OpWalk dir) /\
    fs_walk dir = Ok walked /\
    reads log = (fun rf => path_join rf.1 [rf.2]) <$> pairs /\
    Forall (fun rf => exists dirs files,
              (rf.1, dirs, files) ∈ walked /\ rf.2 ∈ files) pairs /\
    StronglySorted root_le pairs /\
    (NoDup ((fun e => e.1.1) <$> walked) -> StronglySorted pair_le pairs) /\
    sublist (reads log) (traversal walked) /\
    Forall (fun p => file_is_mapping p = true) (reads log) /\
    (forall k,
       k ∈ dom merged <-> exists p, p ∈ reads log /\ k ∈ dom (file_dict p)) /\
    (forall l1 p l2 k,
       reads log = l1 ++ p :: l2 ->
       k ∈ dom (file_dict p) ->
       (forall q, q ∈ l2 -> k ∉ dom (file_dict q)) ->
       merged !! k = file_dict p !! k).
Proof.
  intros Hrun Hnf.
  assert (Hfacts : is_Some (ansible_facts result)).
  { destruct (run_result_shape task result log Hrun)
      as (Hfm & [?|Hm]); [done|].
    apply Hfm in Hm. congruence. }
  destruct (run_exists_inv task result log Hrun Hfacts)
    as (dir & walked & merged & facts & Hlog & Hwalk & Hsub & Hf & Hshape & _
        & Hcases).
  destruct Hcases as [(_ & _ & Hall & ->)|(l & p & _ & _ & _ & Hf' & _)];
    [|congruence].
  pose proof Hsub as Hpairs. rewrite traversal_paths in Hpairs.
  apply sublist_fmap_inv in Hpairs as (pairs & Hreads & Hpairs).
  exists dir, walked, (merge_files (reads log) ∅), pairs.
  split_and!; try done.
  - rewrite Hf. destruct Hshape as [->|[name ->]]; [by left|].
    right. by exists name.
  - apply Forall_forall. intros rf Hrf. apply traversal_pairs_walk.
    eapply elem_of_submseteq; [exact Hrf|by apply sublist_submseteq].
  - eapply sorted_sublist; [exact Hpairs|apply traversal_pairs_roots].
  - intros Hnd. eapply sorted_sublist; [exact Hpairs|].
    by apply traversal_pairs_sorted.
  - intros k. rewrite merge_files_dom, dom_empty_L.
    split; [intros [Hk|Hk]; [by apply elem_of_empty in Hk|done]|by right].
  - intros l1 p l2 k -> Hk Hno. by apply merge_files_last.
Qed.

End run_facts.

(** C1: the claim fails.  [vars/z/l.yml] holds a list: the result has
    [failed = true] and the message, and it has [ansible_facts] as
    well, with the variables of the directory read before. *)
Lemma C1_counterexample :
  run (host := Fixture.fx_host Fixture.broken) Fixture.task_plain [] =
    (Ok Fixture.broken_result, Fixture.broken_log) /\
  "vars/z/l.yml" ∈ reads Fixture.broken_log /\
  file_is_mapping (host := Fixture.fx_host Fixture.broken) "vars/z/l.yml"
    = false /\
  failed Fixture.broken_result = Some true /\
  message Fixture.broken_result =
    Some "vars/z/l.yml must be stored as a dictionary/hash" /\
  ansible_facts Fixture.broken_result = Some (Flat {["x" := PyInt 1]}).
Proof.
  split_and!; [vm_compute; reflexivity| |vm_compute; reflexivity|done..].
  apply list_elem_of_In. vm_compute. auto.
Qed.

Lemma C1_failure_keeps_facts_witness :
  run (host := Fixture.fx_host Fixture.broken) Fixture.task_plain [] =
    (Ok Fixture.broken_result, Fixture.broken_log) /\
  (failed Fixture.broken_result = Some true <->
   is_Some (message Fixture.broken_result)) /\
  (is_Some (ansible_facts Fixture.broken_result) \/
   is_Some (message Fixture.broken_result)) /\
  (forall p,
     p ∈ reads Fixture.broken_log ->
     file_is_mapping (host := Fixture.fx_host Fixture.broken) p = false ->
     failed Fixture.broken_result = Some true /\
     message Fixture.broken_result = Some (not_a_dict_msg p) /\
     is_Some (ansible_facts Fixture.broken_result)).
Proof.
  split; [vm_compute; reflexivity|].
  apply (C1_failure_keeps_facts (host := Fixture.fx_host Fixture.broken)
           Fixture.task_plain Fixture.broken_result Fixture.broken_log).
  vm_compute; reflexivity.
Defined.

(** C2.  [_ansible_no_log] is assigned [show_content] itself: with a
    file that must not be shown it is false, and with files that may
    all be shown it is true. *)
Theorem C2_no_log_is_show_content :
  (file_flag (host := Fixture.fx_host Fixture.vault) "vars/secret.yml"
     = false /\
   exists r log,
     run (host := Fixture.fx_host Fixture.vault) Fixture.task_plain []
       = (Ok r, log) /\
     reads log = ["vars/secret.yml"] /\
     _ansible_no_log r = Some false) /\
  (exists r log,
     run (host := Fixture.host) Fixture.task_plain [] = (Ok r, log) /\
     forallb (file_flag (host := Fixture.host)) (reads log) = true /\
     _ansible_no_log r = Some true).
Proof.
  split; [split; [vm_compute; reflexivity|]|];
    eexists _, _; (split_and!; [vm_compute; reflexivity|..]);
    vm_compute; reflexivity.
Qed.

Lemma C3_last_writer_wins_witness :
  (run (host := Fixture.host) Fixture.task_plain [] =
     (Ok Fixture.plain_result, Fixture.plain_log) /\
   failed Fixture.plain_result = None) /\
  exists dir walked merged pairs,
    (ansible_facts Fixture.plain_result = Some (Flat merged) \/
     exists name, ansible_facts Fixture.plain_result
                    = Some (Scoped name merged)) /\
    Fixture.plain_log !! 1%nat = Some (OpWalk dir) /\
    fs_walk (Host := Fixture.host) dir = Ok walked /\
    reads Fixture.plain_log = (fun rf => path_join rf.1 [rf.2]) <$> pairs /\
    Forall (fun rf => exists dirs files,
              (rf.1, dirs, files) ∈ walked /\ rf.2 ∈ files) pairs /\
    StronglySorted root_le pairs /\
    (NoDup ((fun e => e.1.1) <$> walked) -> StronglySorted pair_le pairs) /\
    sublist (reads Fixture.plain_log) (traversal walked) /\
    Forall (fun p => file_is_mapping (host := Fixture.host) p = true)
      (reads Fixture.plain_log) /\
    (forall k,
       k ∈ dom merged <->
       exists p, p ∈ reads Fixture.plain_log /\
                 k ∈ dom (file_dict (host := Fixture.host) p)) /\
    (forall l1 p l2 k,
       reads Fixture.plain_log = l1 ++ p :: l2 ->
       k ∈ dom (file_dict (host := Fixture.host) p) ->
       (forall q, q ∈ l2 -> k ∉ dom (file_dict (host := Fixture.host) q)) ->
       merged !! k = file_dict (host := Fixture.host) p !! k).
Proof.
  split; [split; [vm_compute; reflexivity|reflexivity]|].
  apply (C3_last_writer_wins (host := Fixture.host) Fixture.task_plain
           Fixture.plain_result Fixture.plain_log);
    [vm_compute; reflexivity|reflexivity].
Defined.

(** ** Ignore patterns *)

Section ignore_facts.
Context `{host : Host}.

Local Arguments path_join : simpl never.








End ignore_facts.



(** ** Negative depth *)

Section depth_facts.
Context `{host : Host}.

Lemma role_source_dir_attrs (task : Task) (self self' : ActionModule) :
  role_source_dir task self = Ok self' ->
  depth self' = depth self /\
  return_results_as_name self' = return_results_as_name self.
Proof.
  unfold role_source_dir. destruct (_role task) as [role|];
    [|by intros [= <-]].
  destruct (source_dir self) as [dir|]; simpl; [|done].
  destruct (py_eq_str dir "vars");
    (destruct (py_path_join _ _); simpl; [|done]); by intros [= <-].
Qed.

(** C10.  With a negative depth the walker yields no directory: for
    the first directory the counter is 1, above the limit, and the
    loop ends.  When the arguments resolve and the directory exists,
    [run] returns without a failure, with an empty merged mapping,
    under [name] when it is given, and reads no file. *)
Theorem C10_negative_depth (task : Task) (self : ActionModule)
    (dir : PyValue) (walked : list (string * list string * list string))
    (d : Z) (log : list FsOp) :
  _set_args task init_self = Ok (None, self) ->
  args_get "depth" (PyInt 0) (args task) = PyInt d ->
  d < 0 ->
  resolved_dir task self = Ok dir ->
  fs_exists dir = Ok true ->
  fs_walk dir = Ok walked ->
  hashable (args_get "name" PyNone (args task)) = true ->
  traverse_loop (PyInt d) 0 (sort_by (fun e => e.1.1) walked) = Ok [] /\
  run task log =
    (Ok {| failed := None; message := None;
           ansible_facts :=
             Some (if truthy (args_get "name" PyNone (args task))
                   then Scoped (args_get "name" PyNone (args task)) ∅
                   else Flat ∅);
           _ansible_no_log := Some true |},
     log ++ [OpExists dir; OpWalk dir]).
Proof.
  intros Hset Hdepth Hd Hdir Hex Hwalk Hname.
  assert (Htr : traverse_loop (PyInt d) 0 (sort_by (fun e => e.1.1) walked)
                = Ok []) by (by apply traverse_loop_negative).
  split; [done|].
  destruct (set_args_ok_inv _ _ _ Hset)
    as (_ & _ & Hshow & Hn & _ & Hdep & _).
  unfold resolved_dir in Hdir.
  destruct (role_source_dir task self) as [self'|e] eqn:Hrole; [|done].
  simpl in Hdir.
  destruct (source_dir self') as [dir'|] eqn:Hsd; [|done].
  injection Hdir as ->.
  destruct (role_source_dir_attrs _ _ _ Hrole) as [Hdep' Hn'].
  pose proof (role_source_dir_show_content _ _ _ Hrole) as Hshow'.
  unfold run. rewrite Hset, bind_lift_ok, Hrole, bind_lift_ok, Hsd.
  simpl attr. rewrite bind_lift_ok, Hex, bind_access_ok.
  unfold _traverse_dir_depth. rewrite Hsd, Hdep', Hdep, Hdepth. simpl attr.
  rewrite !bind_assoc, bind_lift_ok, bind_assoc, Hwalk, bind_access_ok.
  rewrite bind_assoc, bind_lift_ok, Htr, bind_lift_ok.
  cbn [run_loop]. rewrite bind_ret. cbn [rs_self rs_results rs_result].
  rewrite Hn', Hn. simpl attr. rewrite bind_lift_ok.
  unfold finalize. rewrite Hname.
  rewrite Hshow', Hshow. unfold ret, set_facts. simpl.
  rewrite <- app_assoc. simpl.
  by destruct (truthy (args_get "name" PyNone (args task))).
Qed.

End depth_facts.

Lemma C10_negative_depth_witness :
  (_set_args (host := Fixture.host) Fixture.task_negative_depth init_self =
     Ok (None, self_of (host := Fixture.host) Fixture.task_negative_depth) /\
   args_get "depth" (PyInt 0) (args Fixture.task_negative_depth)
     = PyInt (-1) /\
   -1 < 0 /\
   resolved_dir (host := Fixture.host) Fixture.task_negative_depth
     (self_of (host := Fixture.host) Fixture.task_negative_depth)
     = Ok (PyStr "vars") /\
   fs_exists (Host := Fixture.host) (PyStr "vars") = Ok true /\
   fs_walk (Host := Fixture.host) (PyStr "vars")
     = Ok (Fixture.fx_walk Fixture.tree) /\
   hashable (args_get "name" PyNone (args Fixture.task_negative_depth))
     = true) /\
  run (host := Fixture.host) Fixture.task_negative_depth [] =
    (Ok {| failed := None; message := None;
           ansible_facts := Some (Flat ∅);
           _ansible_no_log := Some true |},
     [OpExists (PyStr "vars"); OpWalk (PyStr "vars")]).
Proof.
  split; [split_and!; (lia || (vm_compute; reflexivity))|].
  apply (C10_negative_depth (host := Fixture.host)
           Fixture.task_negative_depth
           (self_of (host := Fixture.host) Fixture.task_negative_depth)
           (PyStr "vars") (Fixture.fx_walk Fixture.tree) (-1) []);
    (lia || (vm_compute; reflexivity)).
Defined.

(** ** Examples *)

Example split_whitespace :
  py_split ("  secret.yml" +:+ String (ascii_of_nat 9) " *.md ")
    = ["secret.yml"; "*.md"].
Proof. reflexivity. Qed.

(** [str.split()] splits at the whitespace that is not ASCII as well,
    here a no-break space (U+00A0) and an ideographic space (U+3000);
    a zero-width space (U+200B) is no whitespace. *)
Example split_unicode_whitespace :
  py_split ("a.yml" +:+ String (ascii_of_nat 194) (String (ascii_of_nat 160)
            ("b.yml" +:+ String (ascii_of_nat 227) (String (ascii_of_nat 128)
            (String (ascii_of_nat 128)
            ("c" +:+ String (ascii_of_nat 226) (String (ascii_of_nat 128)
            (String (ascii_of_nat 139) "d"))))))))
    = ["a.yml"; "b.yml";
       "c" +:+ String (ascii_of_nat 226) (String (ascii_of_nat 128)
               (String (ascii_of_nat 139) "d"))].
Proof. vm_compute. reflexivity. Qed.

(** The keys of a mapping are gone through in the order of their
    insertion: with [a.yml] first the file [a.yml] is ignored, with
    [*.md] first the test raises on that key. *)
Example mapping_order_matters :
  (dict_keys (Host := Fixture.host) Cases.two_keys = ["a.yml"; "*.md"] /\
   _ignore_file (host := Fixture.host)
     (self_of (host := Fixture.host) Cases.task_ignore_two) "a.yml"
     = Ok true) /\
  (dict_keys (Host := Cases.rev_host) Cases.two_keys = ["*.md"; "a.yml"] /\
   _ignore_file (host := Cases.rev_host)
     (self_of (host := Cases.rev_host) Cases.task_ignore_two) "a.yml"
     = Raise (AnsibleError "Invalid regular expression: *.md")).
Proof. split; split; vm_compute; reflexivity. Qed.

Example join_paths :
  path_join "/roles/web" ["vars"; "sub"] = "/roles/web/vars/sub" /\
  path_join "vars/" ["a.yml"] = "vars/a.yml".
Proof. split; reflexivity. Qed.

Example default_patterns :
  MiniRe.search ".*.md$" "README.md" = true /\
  MiniRe.search ".*.py$" "x.pyc" = false /\
  MiniRe.search ".*.pyc$" "x.pyc" = true /\
  MiniRe.compile "*.md$" = MiniRe.Invalid /\
  MiniRe.compile "(" = MiniRe.Invalid.
Proof. split_and!; vm_compute; reflexivity. Qed.

(** Outside a role, with [secret.yml] to ignore, only [a.yml] and
    [main.yml] are read. *)
Example ignore_by_name :
  reads (run (host := Fixture.fx_host Fixture.secrets)
           Fixture.task_ignore_secret []).2
    = ["vars/a.yml"; "vars/main.yml"].
Proof. vm_compute. reflexivity. Qed.

(** Inside a role, [dir] is taken in the role and [main.yml] is not
    read. *)
Example role_excludes_main :
  (run (host := Fixture.fx_host Fixture.role_tree) Fixture.task_in_role []).2
    = [OpExists (PyStr "/roles/web/vars"); OpWalk (PyStr "/roles/web/vars");
       OpExists (PyStr "/roles/web/vars/a.yml");
       OpRead "/roles/web/vars/a.yml"].
Proof. vm_compute. reflexivity. Qed.

(** * Further properties *)

(** ** One iteration of the loop of [_load_files] *)

Section step_facts.
Context `{host : Host}.

Local Arguments path_join : simpl never.

Lemma load_loop_step_cases (task : Task) (root f : string)
    (rest : list string) (st : LoadState) (log : list FsOp) :
  load_step task root f rest st log.
Proof.
  pose proof (load_loop_cons task root f rest st) as Hc.
  destruct (bool_decide (is_Some (_role task)) && String.eqb f "main.yml")
    eqn:Hrole.
  { apply step_skip. by rewrite Hc. }
  destruct (not_matching (ls_self st) f) as [stop|e] eqn:Hm.
  2: { apply (step_raise _ _ _ _ _ _ e). by rewrite Hc, bind_lift_raise. }
  destruct stop.
  { apply step_skip. by rewrite Hc, bind_lift_ok. }
  destruct (ls_failed st) eqn:Hf.
  { apply step_skip. by rewrite Hc, bind_lift_ok. }
  assert (He : eligible task (ls_self st) f) by done.
  assert (Hc' : load_loop task root (f :: rest) st log =
    (do! there := access (OpExists (PyStr (path_join root [f])))
                         (fs_exists (PyStr (path_join root [f]))) in
     do! load :=
       (if there : bool then
          do! ign := lift (_ignore_file (ls_self st) f) in ret (negb ign)
        else ret false) in
     do! st' := (if load : bool then load_one (path_join root [f]) st
                 else ret st) in
     load_loop task root rest st')%M log).
  { by rewrite Hc, bind_lift_ok. }
  clear Hc.
  destruct (fs_exists (PyStr (path_join root [f]))) as [[|]|e] eqn:Hex.
  3: { apply (step_stat_raise _ _ _ _ _ _ e); [done..|].
       by rewrite Hc', ?Hex, bind_access_raise. }
  2: { apply step_stat; [done..|].
       by rewrite Hc', ?Hex, bind_access_ok, !bind_ret. }
  destruct (_ignore_file (ls_self st) f) as [[|]|e] eqn:Hi.
  3: { apply (step_stat_raise _ _ _ _ _ _ e); [done..|].
       by rewrite Hc', ?Hex, bind_access_ok, bind_assoc, ?Hi, bind_lift_raise. }
  { apply step_stat; [done..|].
    by rewrite Hc', ?Hex, bind_access_ok, bind_assoc, ?Hi, bind_lift_ok,
      !bind_ret. }
  assert (Hc : load_loop task root (f :: rest) st log =
    match loaded (path_join root [f]) with
    | Ok (v, show) =>
        load_loop task root rest (absorb st (path_join root [f]) v show)
          (log ++ [OpExists (PyStr (path_join root [f]));
                   OpRead (path_join root [f])])
    | Raise e =>
        (Raise e, log ++ [OpExists (PyStr (path_join root [f]));
                          OpRead (path_join root [f])])
    end).
  { rewrite Hc', ?Hex, bind_access_ok, bind_assoc, ?Hi, bind_lift_ok, bind_ret.
    simpl negb. cbv iota.
    rewrite (bind_framed _ _ _ (load_one_framed _ st)), load_one_eq.
    destruct (loaded (path_join root [f])) as [[v show]|e]; simpl;
      by rewrite <- app_assoc. }
  destruct (loaded (path_join root [f])) as [[v show]|e] eqn:Hl.
  - by apply (step_read _ _ _ _ _ _ v show).
  - by apply (step_read_raise _ _ _ _ _ _ e).
Qed.

Lemma absorb_eligible (task : Task) (st : LoadState) (p : string)
    (v : PyValue) (show : bool) (f : string) :
  eligible task (ls_self (absorb st p v show)) f <->
  eligible task (ls_self st) f.
Proof.
  unfold eligible.
  assert (not_matching (ls_self (absorb st p v show)) f
          = not_matching (ls_self st) f) as ->; [|done].
  unfold absorb. by destruct show, v.
Qed.

(** The accesses of the loop of [_load_files], whatever its
    outcome. *)
Lemma load_loop_ops (task : Task) (root : string) (ok : string -> Prop)
    (files : list string) :
  forall (st : LoadState) (log log' : list FsOp) (r : res LoadState),
    (forall f, eligible task (ls_self st) f -> ok f) ->
    load_loop task root files st log = (r, log') ->
    exists ops, log' = log ++ ops /\ file_ops root ok files ops.
Proof.
  induction files as [|f files IH]; intros st log log' r Hok.
  { simpl. unfold ret. intros [= <- <-]. exists [].
    rewrite app_nil_r. split; [done|constructor]. }
  destruct (load_loop_step_cases task root f files st log)
    as [E|e E|e He Hf E|He Hf E|e He Hf E|v show He Hf Hl E]; rewrite E.
  - intros (ops & -> & Hops)%(IH _ _ _ _ Hok). exists ops.
    split; [done|by constructor].
  - intros [= <- <-]. exists []. rewrite app_nil_r. split; [done|constructor].
  - intros [= <- <-]. eexists. split; [done|].
    apply fo_stat; [by apply Hok|constructor].
  - intros (ops & -> & Hops)%(IH _ _ _ _ Hok). eexists.
    split; [by rewrite <- app_assoc|]. apply fo_stat; [by apply Hok|done].
  - intros [= <- <-]. eexists. split; [done|].
    apply fo_read; [by apply Hok|constructor].
  - intros (ops & -> & Hops)%IH.
    2: { intros g Hg. apply Hok.
         exact (proj1 (absorb_eligible _ _ _ _ _ _) Hg). }
    eexists. split; [by rewrite <- app_assoc|].
    apply fo_read; [by apply Hok|done].
Qed.

Lemma file_ops_Forall (root : string) (ok : string -> Prop)
    (files : list string) (ops : list FsOp) :
  file_ops root ok files ops ->
  Forall (fun op => exists f,
            f ∈ files /\ ok f /\
            (op = OpExists (PyStr (path_join root [f])) \/
             op = OpRead (path_join root [f]))) ops.
Proof.
  induction 1 as [files|f files ops _ IH|f files ops Hf _ IH
                 |f files ops Hf _ IH]; [constructor|..].
  - eapply Forall_impl; [exact IH|].
    intros op (g & Hg & ?). exists g. split; [by right|done].
  - constructor.
    { exists f. split_and!; [by left|done|by left]. }
    eapply Forall_impl; [exact IH|].
    intros op (g & Hg & ?). exists g. split; [by right|done].
  - constructor; [|constructor].
    { exists f. split_and!; [by left|done|by left]. }
    { exists f. split_and!; [by left|done|by right]. }
    eapply Forall_impl; [exact IH|].
    intros op (g & Hg & ?). exists g. split; [by right|done].
Qed.

Lemma guarded_weaken (s : option string) (ops : list FsOp) :
  guarded_from None ops = true -> guarded_from s ops = true.
Proof. destruct ops as [|[[]| |] ops]; simpl; try done. Qed.

Lemma guarded_app (s : option string) (l1 l2 : list FsOp) :
  guarded_from s l1 = true -> guarded l2 = true ->
  guarded_from s (l1 ++ l2) = true.
Proof.
  revert s. induction l1 as [|op l1 IH]; intros s H1 H2; simpl.
  { by apply guarded_weaken. }
  destruct op as [[]| |q]; simpl in *; try by apply IH.
  destruct s as [p|]; [|done].
  apply andb_true_iff in H1 as [-> H1]. simpl. by apply IH.
Qed.

Lemma file_ops_guarded (root : string) (ok : string -> Prop)
    (files : list string) (ops : list FsOp) :
  file_ops root ok files ops -> guarded ops = true.
Proof.
  unfold guarded.
  induction 1 as [files|f files ops _ IH|f files ops Hf _ IH
                 |f files ops Hf _ IH]; simpl; try done.
  - by apply guarded_weaken.
  - by rewrite String.eqb_refl.
Qed.

Lemma file_ops_file_op (root : string) (ok : string -> Prop)
    (files : list string) (ops : list FsOp) :
  file_ops root ok files ops -> Forall (fun op => is_file_op op = true) ops.
Proof.
  intros H%file_ops_Forall. eapply Forall_impl; [exact H|].
  by intros op (f & _ & _ & [->| ->]).
Qed.

End step_facts.

(** ** What the merger touches *)

Section access_facts.
Context `{host : Host}.

Local Arguments path_join : simpl never.

(** X6.  Inside a role, [_load_files] makes no access for a file
    named [main.yml]: every existence check and every read is for
    another file of the directory, whatever the outcome. *)
Theorem X6_role_skips_main (task : Task) (self : ActionModule)
    (root : string) (files : list string) (log : list FsOp) :
  is_Some (_role task) ->
  exists ops,
    (_load_files task self root files log).2 = log ++ ops /\
    Forall (fun op => exists f,
              f ∈ files /\ f <> "main.yml" /\
              (op = OpExists (PyStr (path_join root [f])) \/
               op = OpRead (path_join root [f]))) ops.
Proof.
  intros Hrole.
  destruct (_load_files task self root files log) as [r log'] eqn:E.
  apply (load_loop_ops task root (fun f => f <> "main.yml")) in E
    as (ops & -> & Hops).
  - exists ops. split; [done|]. by apply file_ops_Forall.
  - intros f [Hf _] ->. rewrite bool_decide_eq_true_2 in Hf; done.
Qed.

(** X7.  With [files_matching], [_load_files] makes no access for a
    file whose name the pattern does not match: every existence check
    and every read is for a file name in which the search succeeds. *)
Theorem X7_files_matching_filters (task : Task) (self : ActionModule)
    (fm : PyValue) (p root : string) (files : list string)
    (log : list FsOp) :
  files_matching self = Some fm ->
  truthy fm = true ->
  matcher self = Some (Some p) ->
  exists ops,
    (_load_files task self root files log).2 = log ++ ops /\
    Forall (fun op => exists f,
              f ∈ files /\ re_search p f = true /\
              (op = OpExists (PyStr (path_join root [f])) \/
               op = OpRead (path_join root [f]))) ops.
Proof.
  intros Hfm Ht Hm.
  destruct (_load_files task self root files log) as [r log'] eqn:E.
  apply (load_loop_ops task root (fun f => re_search p f = true)) in E
    as (ops & -> & Hops).
  - exists ops. split; [done|]. by apply file_ops_Forall.
  - intros f [_ Hf]. unfold not_matching in Hf. simpl in Hf.
    rewrite Hfm in Hf. simpl in Hf. rewrite Ht, Hm in Hf. simpl in Hf.
    injection Hf as Hf. by apply negb_false_iff.
Qed.

(** X8.  A file of the listing that does not exist any more is
    skipped: it is not read, the state is unchanged, and the ignore
    patterns are not evaluated for it, so that an entry of
    [ignore_files] that does not compile raises nothing here. *)
Theorem X8_vanished_file_skipped (task : Task) (root f : string)
    (rest : list string) (st : LoadState) (log : list FsOp) :
  bool_decide (is_Some (_role task)) && String.eqb f "main.yml" = false ->
  not_matching (ls_self st) f = Ok false ->
  ls_failed st = false ->
  fs_exists (PyStr (path_join root [f])) = Ok false ->
  load_loop task root (f :: rest) st log =
    load_loop task root rest st
      (log ++ [OpExists (PyStr (path_join root [f]))]).
Proof.
  intros Hrole Hm Hnf Hex.
  rewrite load_loop_cons, Hrole, Hm, bind_lift_ok, Hnf. cbn [negb andb].
  by rewrite Hex, bind_access_ok, !bind_ret.
Qed.

(** X9.  Once a file of the directory has failed, [_load_files]
    touches no other file of the directory: the rest of the loop
    makes no access and leaves the state as it is. *)
Theorem X9_no_access_after_failure (task : Task) (root : string)
    (files : list string) (st : LoadState) (fm : PyValue)
    (m : option string) (log : list FsOp) :
  ls_failed st = true ->
  files_matching (ls_self st) = Some fm ->
  matcher (ls_self st) = Some m ->
  (truthy fm = true -> is_Some m) ->
  load_loop task root files st log = (Ok st, log).
Proof.
  intros Hf Hfm Hm Hsome.
  assert (Hnm : forall f, exists b, not_matching (ls_self st) f = Ok b).
  { intros f. unfold not_matching. rewrite Hfm, Hm. simpl.
    destruct (truthy fm); [|by eexists].
    destruct Hsome as [p ->]; [done|]. by eexists. }
  induction files as [|f files IH]; [done|].
  rewrite load_loop_cons.
  destruct (bool_decide (is_Some (_role task)) && String.eqb f "main.yml");
    [done|].
  destruct (Hnm f) as [b ->]. rewrite bind_lift_ok, Hf.
  by rewrite andb_false_r.
Qed.

(** The accesses of the loop of [run], whatever its outcome. *)
Lemma run_loop_ops (task : Task) (entries : list (string * list string)) :
  forall (st : RunState) (log log' : list FsOp) (r : res RunState),
    run_loop task entries st log = (r, log') ->
    exists ops,
      log' = log ++ ops /\ guarded ops = true /\
      Forall (fun op => is_file_op op = true) ops.
Proof.
  induction entries as [|[root files] entries IH]; intros st log log' r.
  { simpl. unfold ret. intros [= <- <-]. exists [].
    rewrite app_nil_r. by split_and!. }
  cbn [run_loop]. unfold bind at 1.
  destruct (_load_files task (rs_self st) root files log)
    as [[ls|e] log1] eqn:E;
    apply (load_loop_ops task root (fun _ => True)) in E
      as (ops1 & -> & Hops); try done.
  2: { intros [= <- <-]. exists ops1.
       split_and!; [done|by eapply file_ops_guarded
                   |by eapply file_ops_file_op]. }
  destruct (negb (ls_failed ls)).
  - intros (ops2 & -> & Hg & Hf)%IH. exists (ops1 ++ ops2).
    split_and!; [by rewrite app_assoc| |].
    + apply guarded_app; [by eapply file_ops_guarded|done].
    + apply Forall_app. split; [by eapply file_ops_file_op|done].
  - unfold ret. intros [= <- <-]. exists ops1.
    split_and!; [done|by eapply file_ops_guarded|by eapply file_ops_file_op].
Qed.

(** The log of a call of [run], whatever its outcome. *)
Lemma run_log_shape (task : Task) (r : res Result) (log : list FsOp) :
  run task [] = (r, log) ->
  log = [] \/
  (exists dir, log = [OpExists dir] /\ fs_exists dir <> Ok true) \/
  (exists dir ops,
     log = OpExists dir :: OpWalk dir :: ops /\
     fs_exists dir = Ok true /\
     guarded ops = true /\
     Forall (fun op => is_file_op op = true) ops).
Proof.
  unfold run.
  destruct (_set_args task init_self) as [[r0 self]|e];
    [rewrite bind_lift_ok|rewrite bind_lift_raise; intros [= <- <-]; by left].
  destruct (role_source_dir task self) as [self'|e];
    [rewrite bind_lift_ok|rewrite bind_lift_raise; intros [= <- <-]; by left].
  destruct (source_dir self') as [dir|] eqn:Hdir; simpl attr;
    [rewrite bind_lift_ok|rewrite bind_lift_raise; intros [= <- <-]; by left].
  destruct (fs_exists dir) as [[|]|e] eqn:Hex;
    [rewrite bind_access_ok|rewrite bind_access_ok
    |rewrite bind_access_raise]; simpl app.
  2,3: intros [= <- <-]; right; left; exists dir; split; [done|congruence].
  intros E. right. right. exists dir.
  unfold _traverse_dir_depth in E. rewrite Hdir in E. simpl attr in E.
  rewrite !bind_assoc, bind_lift_ok in E. rewrite bind_assoc in E.
  destruct (fs_walk dir) as [walked|e];
    [rewrite bind_access_ok in E|rewrite bind_access_raise in E];
    simpl app in E.
  2: { injection E as <- <-. exists []. by split_and!. }
  rewrite bind_assoc in E.
  destruct (depth self') as [d|]; simpl attr in E;
    [rewrite bind_lift_ok in E|rewrite bind_lift_raise in E].
  2: { injection E as <- <-. exists []. by split_and!. }
  destruct (traverse_loop d 0 _) as [entries|e];
    [rewrite bind_lift_ok in E|rewrite bind_lift_raise in E].
  2: { injection E as <- <-. exists []. by split_and!. }
  unfold bind at 1 in E.
  destruct (run_loop task entries _ _) as [[st|e] log1] eqn:Hloop.
  2: { injection E as <- <-.
       apply run_loop_ops in Hloop as (ops & -> & Hg & Hf).
       exists ops. by split_and!. }
  apply run_loop_ops in Hloop as (ops & -> & Hg & Hf).
  exists ops.
  destruct (return_results_as_name (rs_self st)) as [name|]; simpl attr in E;
    [rewrite bind_lift_ok in E|rewrite bind_lift_raise in E].
  2: { injection E as <- <-. by split_and!. }
  destruct (finalize name (rs_results st));
    [rewrite bind_lift_ok in E|rewrite bind_lift_raise in E];
    injection E as <- <-; by split_and!.
Qed.

(** X10.  Whatever the outcome of [run], a file is read only right
    after the check that it exists: every read in the log follows at
    once the existence check of the same path. *)
Theorem X10_reads_follow_checks (task : Task) :
  guarded (run task []).2 = true.
Proof.
  destruct (run task []) as [r log] eqn:E.
  apply run_log_shape in E
    as [->|[(dir & -> & _)|(dir & ops & -> & _ & Hg & _)]]; simpl.
  - done.
  - by destruct dir.
  - unfold guarded. destruct dir; simpl; done.
Qed.

(** X11.  Whatever the outcome of [run]: the first access is the
    existence check of the source directory; the directory is walked
    only when the check succeeds, once and right after the check; all
    later accesses are checks and reads of files, never a walk. *)
Theorem X11_walks_once (task : Task) :
  (run task []).2 = [] \/
  (exists dir, (run task []).2 = [OpExists dir] /\ fs_exists dir <> Ok true) \/
  (exists dir ops,
     (run task []).2 = OpExists dir :: OpWalk dir :: ops /\
     fs_exists dir = Ok true /\
     Forall (fun op => is_file_op op = true) ops).
Proof.
  destruct (run task []) as [r log] eqn:E.
  apply run_log_shape in E as [->|[(dir & -> & ?)|(dir & ops & -> & ? & _ & ?)]].
  - by left.
  - right. left. by exists dir.
  - right. right. by exists dir, ops.
Qed.

End access_facts.

Lemma X6_role_skips_main_witness :
  is_Some (_role Fixture.task_in_role) /\
  exists ops,
    (_load_files (host := Fixture.fx_host Fixture.role_tree)
       Fixture.task_in_role
       (self_of (host := Fixture.fx_host Fixture.role_tree)
          Fixture.task_in_role)
       "/roles/web/vars" ["a.yml"; "main.yml"] []).2 = [] ++ ops /\
    Forall (fun op => exists f,
              f ∈ ["a.yml"; "main.yml"] /\ f <> "main.yml" /\
              (op = OpExists (PyStr (path_join "/roles/web/vars" [f])) \/
               op = OpRead (path_join "/roles/web/vars" [f]))) ops.
Proof.
  split; [by eexists|].
  apply (X6_role_skips_main (host := Fixture.fx_host Fixture.role_tree)
           Fixture.task_in_role _ "/roles/web/vars" ["a.yml"; "main.yml"] []).
  by eexists.
Defined.

Lemma X7_files_matching_filters_witness :
  (files_matching (self_of (host := Fixture.host) Cases.task_matching)
     = Some (PyStr "^a") /\
   truthy (PyStr "^a") = true /\
   matcher (self_of (host := Fixture.host) Cases.task_matching)
     = Some (Some "^a")) /\
  exists ops,
    (_load_files (host := Fixture.host) Cases.task_matching
       (self_of (host := Fixture.host) Cases.task_matching)
       "vars" ["README.md"; "a.yml"; "b.yml"] []).2 = [] ++ ops /\
    Forall (fun op => exists f,
              f ∈ ["README.md"; "a.yml"; "b.yml"] /\
              re_search (Host := Fixture.host) "^a" f = true /\
              (op = OpExists (PyStr (path_join "vars" [f])) \/
               op = OpRead (path_join "vars" [f]))) ops.
Proof.
  split; [split_and!; vm_compute; reflexivity|].
  apply (X7_files_matching_filters (host := Fixture.host)
           Cases.task_matching _ (PyStr "^a") "^a" "vars"
           ["README.md"; "a.yml"; "b.yml"] []);
    vm_compute; reflexivity.
Defined.

Lemma X8_vanished_file_skipped_witness :
  (bool_decide (is_Some (_role Fixture.task_plain))
     && String.eqb "b.yml" "main.yml" = false /\
   not_matching (host := Cases.gone_host)
     (ls_self (Cases.start_state (host := Cases.gone_host)
                 Fixture.task_plain)) "b.yml" = Ok false /\
   ls_failed (Cases.start_state (host := Cases.gone_host)
                Fixture.task_plain) = false /\
   fs_exists (Host := Cases.gone_host) (PyStr (path_join "vars" ["b.yml"]))
     = Ok false) /\
  load_loop (host := Cases.gone_host) Fixture.task_plain "vars" ["b.yml"]
    (Cases.start_state (host := Cases.gone_host) Fixture.task_plain) [] =
    load_loop (host := Cases.gone_host) Fixture.task_plain "vars" []
      (Cases.start_state (host := Cases.gone_host) Fixture.task_plain)
      ([] ++ [OpExists (PyStr (path_join "vars" ["b.yml"]))]).
Proof.
  split; [split_and!; vm_compute; reflexivity|].
  apply (X8_vanished_file_skipped (host := Cases.gone_host)
           Fixture.task_plain "vars" "b.yml" []
           (Cases.start_state (host := Cases.gone_host) Fixture.task_plain)
           []); vm_compute; reflexivity.
Defined.

Lemma X9_no_access_after_failure_witness :
  (ls_failed (Cases.failed_state (host := Fixture.host) Fixture.task_plain)
     = true /\
   files_matching
     (ls_self (Cases.failed_state (host := Fixture.host) Fixture.task_plain))
     = Some PyNone /\
   matcher
     (ls_self (Cases.failed_state (host := Fixture.host) Fixture.task_plain))
     = Some None) /\
  load_loop (host := Fixture.host) Fixture.task_plain "vars"
    ["a.yml"; "b.yml"]
    (Cases.failed_state (host := Fixture.host) Fixture.task_plain) [] =
    (Ok (Cases.failed_state (host := Fixture.host) Fixture.task_plain), []).
Proof.
  split; [split_and!; vm_compute; reflexivity|].
  apply (X9_no_access_after_failure (host := Fixture.host)
           Fixture.task_plain "vars" ["a.yml"; "b.yml"]
           (Cases.failed_state (host := Fixture.host) Fixture.task_plain)
           PyNone None []);
    [vm_compute; reflexivity..|].
  intros H. discriminate H.
Defined.

(** ** Further properties of argument resolution *)

Section resolution_facts.
Context `{host : Host}.

Local Abbreviation arg_name task := (args_get "name" PyNone (args task)).
Local Abbreviation arg_dir task := (args_get "dir" PyNone (args task)).
Local Abbreviation arg_depth task :=
  (args_get "depth" (PyInt 0) (args task)).
Local Abbreviation arg_files_matching task :=
  (args_get "files_matching" PyNone (args task)).
Local Abbreviation arg_ignore_files task :=
  (args_get "ignore_files" (PyList []) (args task)).

(** X1.  When the arguments resolve and the source directory does not
    exist, [run] returns the failure ["<dir> directory does not
    exist"], with neither [ansible_facts] nor [_ansible_no_log]; the
    existence check is its only access to the filesystem. *)
Theorem X1_directory_does_not_exist (task : Task) (r : option Result)
    (self : ActionModule) (dir : PyValue) (log : list FsOp) :
  _set_args task init_self = Ok (r, self) ->
  resolved_dir task self = Ok dir ->
  fs_exists dir = Ok false ->
  run task log =
    (Ok {| failed := Some true;
           message := Some (py_format dir +:+ " directory does not exist");
           ansible_facts := None;
           _ansible_no_log := None |},
     log ++ [OpExists dir]).
Proof.
  intros Hset Hdir Hex. unfold resolved_dir in Hdir.
  destruct (role_source_dir task self) as [self'|e] eqn:Hrole; [|done].
  simpl in Hdir.
  destruct (source_dir self') as [dir'|] eqn:Hsd; [|done].
  injection Hdir as ->.
  unfold run. rewrite Hset, bind_lift_ok, Hrole, bind_lift_ok, Hsd.
  simpl attr. by rewrite bind_lift_ok, Hex, bind_access_ok.
Qed.

(** X2.  With recognized options, a [files_matching] that is empty or
    compiles, an [ignore_files] that is absent, a string or a list,
    and a [dir] that is not empty, [_set_args] returns [None] and
    assigns: [name] (default [None]), [dir], [depth] (default 0),
    [files_matching] with the matcher compiled from it (or [None]),
    and in [ignore_files] the entries of the user, a string being
    split at whitespace, followed by the three default patterns. *)
Theorem X2_resolution_assigns (task : Task) (self0 : ActionModule) :
  known_args (args task) = true ->
  truthy (arg_files_matching task) = false \/
    re_valid (py_format (arg_files_matching task)) = true ->
  is_str_or_list (arg_ignore_files task) = true ->
  truthy (arg_dir task) = true ->
  _set_args task self0 =
    Ok (None,
        {| show_content := show_content self0;
           return_results_as_name := Some (arg_name task);
           source_dir := Some (arg_dir task);
           depth := Some (arg_depth task);
           files_matching := Some (arg_files_matching task);
           matcher :=
             Some (if truthy (arg_files_matching task)
                   then Some (py_format (arg_files_matching task))
                   else None);
           ignore_files :=
             Some (PyList (user_patterns (arg_ignore_files task) ++
                           [PyStr ".*.md"; PyStr ".*.py"; PyStr ".*.pyc"]))
        |}).
Proof.
  intros Hk Hfm Hign Hdir. unfold _set_args. rewrite (find_known _ Hk).
  assert (Hm :
    (if truthy (arg_files_matching task)
     then if re_valid (py_format (arg_files_matching task))
          then Ok (Some (py_format (arg_files_matching task)))
          else Raise (ReError (py_format (arg_files_matching task)))
     else Ok None) =
    Ok (if truthy (arg_files_matching task)
        then Some (py_format (arg_files_matching task)) else None)).
  { destruct Hfm as [->| ->]; [done|].
    by destruct (truthy (arg_files_matching task)). }
  rewrite Hm. simpl.
  destruct (arg_ignore_files task); try done; simpl; by rewrite Hdir.
Qed.

(** X3.  An [ignore_files] that is neither a string, a list nor a
    mapping (a null, a number, a boolean) makes [_set_args] raise the
    [AttributeError] of [extend], even before the test of [dir]; [run]
    ends there, before any access to the filesystem. *)
Theorem X3_ignore_files_without_extend (task : Task) (self0 : ActionModule)
    (log : list FsOp) :
  known_args (args task) = true ->
  truthy (arg_files_matching task) = false \/
    re_valid (py_format (arg_files_matching task)) = true ->
  is_str_or_list (arg_ignore_files task) = false ->
  is_dict (arg_ignore_files task) = false ->
  _set_args task self0 = Raise (AttributeError "extend") /\
  run task log = (Raise (AttributeError "extend"), log).
Proof.
  intros Hk Hfm Hsl Hd.
  assert (E : forall s, _set_args task s = Raise (AttributeError "extend")).
  { intros s. unfold _set_args. rewrite (find_known _ Hk).
    assert (Hm : exists m,
      (if truthy (arg_files_matching task)
       then if re_valid (py_format (arg_files_matching task))
            then Ok (Some (py_format (arg_files_matching task)))
            else Raise (ReError (py_format (arg_files_matching task)))
       else Ok None) = Ok m).
    { destruct Hfm as [->| ->]; [by exists None|].
      destruct (truthy (arg_files_matching task)); eexists; reflexivity. }
    destruct Hm as [m ->]. simpl.
    by destruct (arg_ignore_files task). }
  split; [done|]. by apply run_raise.
Qed.

Lemma find_first_unknown (a : list (string * PyValue)) :
  known_args a = false ->
  exists l1 arg v l2,
    a = l1 ++ (arg, v) :: l2 /\
    known_args l1 = true /\
    (arg ∉ VALID_ARGUMENTS) /\
    find (fun kv => negb (bool_decide (kv.1 ∈ VALID_ARGUMENTS))) a
      = Some (arg, v).
Proof.
  induction a as [|[k v] a IH]; simpl; [done|].
  destruct (bool_decide (k ∈ VALID_ARGUMENTS)) eqn:E; simpl.
  - intros (l1 & arg & w & l2 & -> & Hl1 & Hn & Hf)%IH.
    exists ((k, v) :: l1), arg, w, l2. simpl. rewrite E, Hl1.
    by split_and!.
  - intros _. exists [], k, v, a. apply bool_decide_eq_false in E.
    by split_and!.
Qed.

(** X4.  With an option that is not recognized, [_set_args] returns a
    failure dict whose message names the first such option in the
    order of the argument dict, and assigns no attribute; [run] then
    raises an [AttributeError] on [source_dir] before any access to
    the filesystem. *)
Theorem X4_first_unknown_option (task : Task) (self0 : ActionModule)
    (log : list FsOp) :
  known_args (args task) = false ->
  exists l1 arg v l2,
    args task = l1 ++ (arg, v) :: l2 /\
    known_args l1 = true /\
    (arg ∉ VALID_ARGUMENTS) /\
    _set_args task self0 =
      Ok (Some {| failed := Some true;
                  message := Some (arg +:+ " is not a valid option in debug");
                  ansible_facts := None;
                  _ansible_no_log := None |},
          self0) /\
    run task log = (Raise (AttributeError "source_dir"), log).
Proof.
  intros Hk.
  destruct (find_first_unknown _ Hk) as (l1 & arg & v & l2 & Ha & Hl1 & Hn & Hf).
  exists l1, arg, v, l2. split_and!; [done..| |by apply run_unknown].
  unfold _set_args. rewrite Hf. by rewrite py_format_str.
Qed.

Lemma ends_with_sep_cons (c : ascii) (x : string) :
  x <> "" -> ends_with_sep (String c x) = ends_with_sep x.
Proof.
  unfold ends_with_sep. destruct x as [|c' x]; [done|]. intros _.
  simpl. by rewrite Nat.sub_0_r.
Qed.

Lemma ends_with_sep_app (a b : string) :
  b <> "" -> ends_with_sep (a +:+ b) = ends_with_sep b.
Proof.
  intros Hb. induction a as [|c a IH]; [done|].
  change (String c a +:+ b) with (String c (a +:+ b)).
  rewrite ends_with_sep_cons; [done|]. by destruct a, b.
Qed.

Lemma append_assoc (a b c : string) : (a +:+ b) +:+ c = a +:+ b +:+ c.
Proof.
  induction a as [|x a IH]; [done|].
  change (String x ((a +:+ b) +:+ c) = String x (a +:+ b +:+ c)).
  by rewrite IH.
Qed.

Lemma append_nonempty (a b : string) : b <> "" -> a +:+ b <> "".
Proof. by destruct a, b. Qed.

(** X5.  Inside a role whose path is not empty and does not end with
    a slash, [run] takes [dir] as follows: ["vars"] is the [vars]
    directory of the role; an absolute [dir] is kept as it is, the
    role path being dropped; any other [dir] is taken inside the
    [vars] directory of the role. *)
Theorem X5_role_directory (task : Task) (role : Role) (self : ActionModule)
    (d : string) :
  _role task = Some role ->
  source_dir self = Some (PyStr d) ->
  _role_path role <> "" ->
  ends_with_sep (_role_path role) = false ->
  resolved_dir task self =
    Ok (PyStr (if String.eqb d "vars" then _role_path role +:+ "/vars"
               else if String.prefix "/" d then d
               else _role_path role +:+ "/vars/" +:+ d)).
Proof.
  intros Hrole Hd Hne Hsep. unfold resolved_dir, role_source_dir.
  rewrite Hrole, Hd. simpl attr. cbn [res_bind py_eq_str].
  assert (Hv : join2 (_role_path role) "vars" = _role_path role +:+ "/vars").
  { unfold join2. simpl String.prefix. cbv iota. rewrite Hsep, orb_false_r.
    by destruct (String.eqb_spec (_role_path role) ""). }
  destruct (String.eqb_spec d "vars") as [->|Hdv].
  { simpl. by rewrite Hv. }
  simpl. rewrite Hv. unfold join2 at 1.
  destruct (String.prefix "/" d); [done|].
  rewrite (ends_with_sep_app _ "/vars") by done. simpl ends_with_sep.
  destruct (String.eqb_spec (_role_path role +:+ "/vars") "") as [E|_].
  { by apply append_nonempty in E. }
  simpl. by rewrite append_assoc.
Qed.

End resolution_facts.

Lemma X1_directory_does_not_exist_witness :
  (_set_args (host := Fixture.host) Cases.task_missing init_self =
     Ok (None, self_of (host := Fixture.host) Cases.task_missing) /\
   resolved_dir (host := Fixture.host) Cases.task_missing
     (self_of (host := Fixture.host) Cases.task_missing)
     = Ok (PyStr "nope") /\
   fs_exists (Host := Fixture.host) (PyStr "nope") = Ok false) /\
  run (host := Fixture.host) Cases.task_missing [] =
    (Ok {| failed := Some true;
           message := Some "nope directory does not exist";
           ansible_facts := None;
           _ansible_no_log := None |},
     [OpExists (PyStr "nope")]).
Proof.
  split; [split_and!; vm_compute; reflexivity|].
  apply (X1_directory_does_not_exist (host := Fixture.host)
           Cases.task_missing None
           (self_of (host := Fixture.host) Cases.task_missing)
           (PyStr "nope") []); vm_compute; reflexivity.
Defined.

Lemma X2_resolution_assigns_witness :
  (known_args (args Fixture.task_ignore_glob) = true /\
   truthy (args_get "files_matching" PyNone (args Fixture.task_ignore_glob))
     = false /\
   is_str_or_list
     (args_get "ignore_files" (PyList []) (args Fixture.task_ignore_glob))
     = true /\
   truthy (args_get "dir" PyNone (args Fixture.task_ignore_glob)) = true) /\
  ignore_files (self_of (host := Fixture.host) Fixture.task_ignore_glob) =
    Some (PyList [PyStr "b.yml"; PyStr "*.md";
                  PyStr ".*.md"; PyStr ".*.py"; PyStr ".*.pyc"]).
Proof.
  split; [split_and!; vm_compute; reflexivity|].
  unfold self_of.
  rewrite (X2_resolution_assigns (host := Fixture.host)
             Fixture.task_ignore_glob init_self);
    [reflexivity|reflexivity|left; reflexivity|reflexivity|reflexivity].
Defined.

Lemma X3_ignore_files_without_extend_witness :
  (known_args (args Cases.task_ignore_none) = true /\
   truthy (args_get "files_matching" PyNone (args Cases.task_ignore_none))
     = false /\
   is_str_or_list
     (args_get "ignore_files" (PyList []) (args Cases.task_ignore_none))
     = false /\
   is_dict
     (args_get "ignore_files" (PyList []) (args Cases.task_ignore_none))
     = false) /\
  _set_args (host := Fixture.host) Cases.task_ignore_none init_self =
    Raise (AttributeError "extend") /\
  run (host := Fixture.host) Cases.task_ignore_none [] =
    (Raise (AttributeError "extend"), []).
Proof.
  split; [split_and!; vm_compute; reflexivity|].
  apply (X3_ignore_files_without_extend (host := Fixture.host)
           Cases.task_ignore_none init_self []);
    [reflexivity|left; reflexivity|reflexivity|reflexivity].
Defined.

Lemma X4_first_unknown_option_witness :
  known_args (args Fixture.task_bogus) = false /\
  exists l1 arg v l2,
    args Fixture.task_bogus = l1 ++ (arg, v) :: l2 /\
    known_args l1 = true /\
    (arg ∉ VALID_ARGUMENTS) /\
    _set_args (host := Fixture.host) Fixture.task_bogus init_self =
      Ok (Some {| failed := Some true;
                  message := Some (arg +:+ " is not a valid option in debug");
                  ansible_facts := None;
                  _ansible_no_log := None |},
          init_self) /\
    run (host := Fixture.host) Fixture.task_bogus [] =
      (Raise (AttributeError "source_dir"), []).
Proof.
  split; [reflexivity|].
  apply (X4_first_unknown_option (host := Fixture.host) Fixture.task_bogus
           init_self []). reflexivity.
Defined.

Lemma X5_role_directory_witness :
  (_role Cases.task_role_sub = Some {| _role_path := "/roles/web" |} /\
   source_dir (self_of (host := Fixture.host) Cases.task_role_sub)
     = Some (PyStr "sub") /\
   "/roles/web" <> "" /\
   ends_with_sep "/roles/web" = false) /\
  resolved_dir (host := Fixture.host) Cases.task_role_sub
    (self_of (host := Fixture.host) Cases.task_role_sub)
    = Ok (PyStr "/roles/web/vars/sub").
Proof.
  split; [split_and!; done|].
  apply (X5_role_directory (host := Fixture.host) Cases.task_role_sub
           {| _role_path := "/roles/web" |}
           (self_of (host := Fixture.host) Cases.task_role_sub) "sub");
    done.
Defined.

(** ** Further properties of the result *)

Section result_facts.
Context `{host : Host}.

Local Arguments path_join : simpl never.

Lemma load_loop_failed_inv (task : Task) (root : string)
    (files : list string) :
  forall (st st' : LoadState) (log log' : list FsOp),
    ls_failed st = true ->
    load_loop task root files st log = (Ok st', log') ->
    st' = st /\ log' = log.
Proof.
  induction files as [|f files IH]; intros st st' log log' Hf.
  { simpl. unfold ret. by intros [= <- <-]. }
  destruct (load_loop_step_cases task root f files st log)
    as [E|e E|e He Hf' E|He Hf' E|e He Hf' E|v show He Hf' Hl E];
    rewrite E; try congruence.
  by apply IH.
Qed.

Lemma absorb_failed (st : LoadState) (p : string) (v : PyValue)
    (show : bool) :
  ls_failed st = false ->
  ls_failed (absorb st p v show) = true ->
  is_mapping v = false /\
  ls_err_msg (absorb st p v show) = not_a_dict_msg p.
Proof.
  intros Hf. unfold absorb, not_a_dict_msg. rewrite py_format_str.
  destruct v; simpl; try done; congruence.
Qed.

(** When the loop of [_load_files] ends in a failure, its last access
    is the read of the file that failed. *)
Lemma load_loop_fail_last (task : Task) (root : string)
    (files : list string) :
  forall (st st' : LoadState) (log log' : list FsOp),
    load_loop task root files st log = (Ok st', log') ->
    ls_failed st = false ->
    ls_failed st' = true ->
    exists p,
      last log' = Some (OpRead p) /\
      file_is_mapping p = false /\
      ls_err_msg st' = not_a_dict_msg p.
Proof.
  induction files as [|f files IH]; intros st st' log log'.
  { simpl. unfold ret. intros [= <- <-]. congruence. }
  destruct (load_loop_step_cases task root f files st log)
    as [E|e E|e He Hf' E|He Hf' E|e He Hf' E|v show He Hf' Hl E];
    rewrite E; try done; try by apply IH.
  intros E' Hf Hf1.
  destruct (ls_failed (absorb st (path_join root [f]) v show)) eqn:Ha.
  - apply load_loop_failed_inv in E' as [-> ->]; [|done].
    destruct (absorb_failed _ _ _ _ Hf Ha) as [Hv Hmsg].
    exists (path_join root [f]). split_and!; [|by unfold file_is_mapping; rewrite Hl|done].
    by rewrite (last_app_cons _ [_]).
  - by apply (IH _ _ _ _ E').
Qed.

Lemma run_loop_fail_last (task : Task) (entries : list (string * list string)) :
  forall (st st' : RunState) (log log' : list FsOp),
    run_loop task entries st log = (Ok st', log') ->
    failed (rs_result st) = None ->
    failed (rs_result st') = Some true ->
    exists p,
      last log' = Some (OpRead p) /\
      file_is_mapping p = false /\
      message (rs_result st') = Some (not_a_dict_msg p).
Proof.
  induction entries as [|[root files] entries IH]; intros st st' log log'.
  { simpl. unfold ret. intros [= <- <-]. congruence. }
  cbn [run_loop]. unfold bind at 1. unfold _load_files.
  destruct (load_loop task root files _ log) as [[ls|e] log1] eqn:E; [|done].
  destruct (ls_failed ls) eqn:Hf; cbn [negb].
  - unfold ret. intros [= <- <-] _ _.
    destruct (load_loop_fail_last _ _ _ _ _ _ _ E eq_refl Hf)
      as (p & Hlast & Hp & Hmsg).
    exists p. simpl. by rewrite Hmsg.
  - intros E'. by apply (IH _ _ _ _ E').
Qed.

(** X12.  A failure ends the traversal at once: when [run] returns a
    failure for a file that holds no mapping, the last access of the
    whole invocation is the read of that file, and the message names
    it.  No later file or directory is touched. *)
Theorem X12_failure_ends_traversal (task : Task) (result : Result)
    (log : list FsOp) :
  run task [] = (Ok result, log) ->
  failed result = Some true ->
  is_Some (ansible_facts result) ->
  exists p,
    last log = Some (OpRead p) /\
    file_is_mapping p = false /\
    message result = Some (not_a_dict_msg p).
Proof.
  intros (r & self & self' & dir & there & _ & _ & _ & _ & H)%run_ok_inv
    Hfail Hfacts.
  destruct there.
  2: { destruct H as [_ ->]. by destruct Hfacts. }
  destruct H as (walked & d & entries & st & ops & name & facts & _ & _ & _
                 & Hloop & -> & _ & _ & ->).
  simpl in Hfail.
  destruct (run_loop_fail_last _ _ _ _ _ _ Hloop eq_refl Hfail)
    as (p & Hlast & Hp & Hmsg).
  exists p. split_and!; [|done|done].
  destruct ops as [|op ops]; [done|].
  by rewrite (last_app_cons [_; _]).
Qed.

(** The loop of [run] that ends in a failure: the results are the
    merge of the files of the directories before the one that failed;
    what was read in that directory is dropped. *)
Lemma run_loop_failure_split (task : Task)
    (entries : list (string * list string)) :
  forall (st st' : RunState) (log log' : list FsOp),
    run_loop task entries st log = (Ok st', log') ->
    failed (rs_result st) = None ->
    failed (rs_result st') = Some true ->
    exists before root files after ops1 ops2 l p,
      entries = before ++ (root, files) :: after /\
      log' = log ++ ops1 ++ ops2 /\
      sublist (reads ops1) (candidates before) /\
      Forall (fun q => file_is_mapping q = true) (reads ops1) /\
      sublist (reads ops2) ((fun f => path_join root [f]) <$> files) /\
      reads ops2 = l ++ [p] /\
      Forall (fun q => file_is_mapping q = true) l /\
      file_is_mapping p = false /\
      message (rs_result st') = Some (not_a_dict_msg p) /\
      rs_results st' = merge_files (reads ops1) (rs_results st).
Proof.
  induction entries as [|[root files] entries IH]; intros st st' log log'.
  { simpl. unfold ret. intros [= <- <-]. congruence. }
  cbn [run_loop]. unfold bind at 1. unfold _load_files.
  destruct (load_loop task root files _ log) as [[ls|e] log1] eqn:E; [|done].
  apply load_loop_replay in E as (ops0 & -> & Hseq & -> & Hsub).
  destruct (replay_props _ _ Hseq eq_refl) as [_ Hcases].
  simpl in Hcases.
  set (ls := replay (reads ops0) _) in *.
  destruct Hcases as [(Hf & Hall & Hres & _)
                     |(Hf & l & p & Hps & Hall & Hp & Herr)];
    rewrite Hf; cbn [negb].
  - intros E' Hnone Hfail.
    destruct (IH _ _ _ _ E' Hnone Hfail)
      as (before & root' & files' & after & ops1 & ops2 & l & p & -> & ->
          & Hs1 & Hall1 & Hs2 & Hps & Hl & Hp & Hmsg & Hr).
    exists ((root, files) :: before), root', files', after, (ops0 ++ ops1),
      ops2, l, p.
    rewrite candidates_cons, reads_app. split_and!; try done.
    + by rewrite <- !app_assoc.
    + by apply sublist_app.
    + by apply Forall_app.
    + rewrite Hr. simpl.
      rewrite Hres, merge_files_union, (left_id_L ∅ (∪)).
      by rewrite merge_files_app.
  - unfold ret. intros [= <- <-] _ _.
    exists [], root, files, entries, [], ops0, l, p. simpl.
    split_and!; try done. by rewrite Herr.
Qed.

(** X13.  When [run] returns a failure, the accesses after the walk
    fall into two parts.  The first part is made in the directories
    [before] the directory [root] of the failing file, and every file
    read there holds a mapping.  The second part is made in [root]:
    its reads are files [l] of [root] that hold mappings, and then
    the failing file [f] of [root], which the message names.
    [ansible_facts] holds the merge of the files of the first part
    alone: the files [l], read in [root] before the failure, are not
    merged, and no directory after [root] is visited. *)
Theorem X13_failure_keeps_earlier_directories (task : Task)
    (result : Result) (log : list FsOp) (facts : Facts) :
  run task [] = (Ok result, log) ->
  failed result = Some true ->
  ansible_facts result = Some facts ->
  exists dir walked m before root files after ops1 ops2 l f,
    fs_walk dir = Ok walked /\
    yielded <$> take m (sort_by (fun e => e.1.1) walked)
      = before ++ (root, files) :: after /\
    log = [OpExists dir; OpWalk dir] ++ ops1 ++ ops2 /\
    sublist (reads ops1) (candidates before) /\
    Forall (fun q => file_is_mapping q = true) (reads ops1) /\
    f ∈ files /\
    reads ops2 = l ++ [path_join root [f]] /\
    sublist l ((fun f' => path_join root [f']) <$> files) /\
    Forall (fun q => file_is_mapping q = true) l /\
    file_is_mapping (path_join root [f]) = false /\
    message result = Some (not_a_dict_msg (path_join root [f])) /\
    (facts = Flat (merge_files (reads ops1) ∅) \/
     exists name, facts = Scoped name (merge_files (reads ops1) ∅)).
Proof.
  intros (r & self & self' & dir & there & _ & _ & _ & _ & H)%run_ok_inv
    Hfail Hfacts.
  destruct there.
  2: { destruct H as [_ ->]. done. }
  destruct H as (walked & d & entries & st & ops & name & facts' & Hwalk & _
                 & Htr & Hloop & -> & _ & Hfin & ->).
  simpl in Hfail, Hfacts. injection Hfacts as ->.
  apply traverse_loop_prefix in Htr as [m ->].
  destruct (run_loop_failure_split _ _ _ _ _ _ Hloop eq_refl Hfail)
    as (before & root & files & after & ops1 & ops2 & l & p & Hent & ->
        & Hs1 & Hall1 & Hs2 & Hps & Hl & Hp & Hmsg & Hr).
  simpl in Hr.
  assert (Hf : exists f, f ∈ files /\ p = path_join root [f]).
  { assert (Hin : p ∈ (fun f => path_join root [f]) <$> files).
    { eapply elem_of_submseteq; [|apply sublist_submseteq, Hs2].
      rewrite Hps. apply elem_of_app. right. by left. }
    apply list_elem_of_fmap in Hin as (f & -> & Hin). by exists f. }
  destruct Hf as (f & Hf & ->).
  exists dir, walked, m, before, root, files, after, ops1, ops2, l, f.
  split_and!; try done.
  - etrans; [|exact Hs2]. rewrite Hps. by apply sublist_inserts_r.
  - unfold finalize in Hfin. rewrite Hr in Hfin.
    destruct (truthy name); [|left; congruence].
    destruct (hashable name); [|done]. right. exists name. congruence.
Qed.

End result_facts.

Lemma X12_failure_ends_traversal_witness :
  (run (host := Fixture.fx_host Fixture.broken) Fixture.task_plain [] =
     (Ok Fixture.broken_result, Fixture.broken_log) /\
   failed Fixture.broken_result = Some true /\
   is_Some (ansible_facts Fixture.broken_result)) /\
  exists p,
    last Fixture.broken_log = Some (OpRead p) /\
    file_is_mapping (host := Fixture.fx_host Fixture.broken) p = false /\
    message Fixture.broken_result = Some (not_a_dict_msg p).
Proof.
  split; [split_and!; [vm_compute; reflexivity|reflexivity|by eexists]|].
  apply (X12_failure_ends_traversal (host := Fixture.fx_host Fixture.broken)
           Fixture.task_plain Fixture.broken_result Fixture.broken_log);
    [vm_compute; reflexivity|reflexivity|by eexists].
Defined.

Lemma X13_failure_keeps_earlier_directories_witness :
  (run (host := Fixture.fx_host Cases.partial) Fixture.task_plain [] =
     (Ok Cases.partial_result, Cases.partial_log) /\
   failed Cases.partial_result = Some true /\
   ansible_facts Cases.partial_result = Some (Flat {["x" := PyInt 1]})) /\
  exists dir walked m before root files after ops1 ops2 l f,
    fs_walk (Host := Fixture.fx_host Cases.partial) dir = Ok walked /\
    yielded <$> take m (sort_by (fun e => e.1.1) walked)
      = before ++ (root, files) :: after /\
    Cases.partial_log = [OpExists dir; OpWalk dir] ++ ops1 ++ ops2 /\
    sublist (reads ops1) (candidates before) /\
    Forall (fun q => file_is_mapping (host := Fixture.fx_host Cases.partial) q
                     = true) (reads ops1) /\
    f ∈ files /\
    reads ops2 = l ++ [path_join root [f]] /\
    sublist l ((fun f' => path_join root [f']) <$> files) /\
    Forall (fun q => file_is_mapping (host := Fixture.fx_host Cases.partial) q
                     = true) l /\
    file_is_mapping (host := Fixture.fx_host Cases.partial)
      (path_join root [f]) = false /\
    message Cases.partial_result = Some (not_a_dict_msg (path_join root [f])) /\
    (Flat {["x" := PyInt 1]} =
       Flat (merge_files (host := Fixture.fx_host Cases.partial)
               (reads ops1) ∅) \/
     exists name,
       Flat {["x" := PyInt 1]} =
         Scoped name (merge_files (host := Fixture.fx_host Cases.partial)
                        (reads ops1) ∅)).
Proof.
  split; [split_and!; [vm_compute; reflexivity|reflexivity|reflexivity]|].
  apply (X13_failure_keeps_earlier_directories
           (host := Fixture.fx_host Cases.partial)
           Fixture.task_plain Cases.partial_result Cases.partial_log
           (Flat {["x" := PyInt 1]}));
    [vm_compute; reflexivity|reflexivity|reflexivity].
Defined.

(** ** The name option, empty files and errors of the loader *)

Section facts_shape.
Context `{host : Host}.

Local Arguments path_join : simpl never.

Local Abbreviation arg_name task := (args_get "name" PyNone (args task)).

Lemma set_args_name (task : Task) (self : ActionModule)
    (r : option Result) :
  _set_args task init_self = Ok (r, self) ->
  is_Some (source_dir self) ->
  return_results_as_name self = Some (arg_name task).
Proof.
  unfold _set_args.
  destruct (find _ (args task)) as [[arg v]|].
  { intros [= <- <-] [? ?]. done. }
  destruct (truthy (args_get "files_matching" PyNone (args task)));
    [destruct (re_valid _); [|done]|]; simpl;
    (destruct (args_get "ignore_files" (PyList []) (args task));
     simpl; try done;
     try (destruct (truthy (args_get "dir" PyNone (args task)));
          simpl; [|done]);
     by intros [= <- <-]).
Qed.

Lemma role_source_dir_assigned (task : Task) (self self' : ActionModule) :
  role_source_dir task self = Ok self' ->
  is_Some (source_dir self') ->
  is_Some (source_dir self).
Proof.
  unfold role_source_dir. destruct (_role task) as [role|];
    [|by intros [= <-]].
  destruct (source_dir self) as [dir|]; simpl; [by eexists|done].
Qed.

(** X14.  When [run] assigns [ansible_facts], the merged mapping is
    put under the value of the [name] option exactly when that value
    is truthy, and the value is then hashable; without [name], or
    with an empty one, the merged mapping is the facts itself. *)
Theorem X14_results_under_name (task : Task) (result : Result)
    (log : list FsOp) (facts : Facts) :
  run task [] = (Ok result, log) ->
  ansible_facts result = Some facts ->
  if truthy (arg_name task)
  then hashable (arg_name task) = true /\
       exists merged, facts = Scoped (arg_name task) merged
  else exists merged, facts = Flat merged.
Proof.
  intros (r & self & self' & dir & there & Hset & Hrole & Hdir & _ & H)
    %run_ok_inv Hfacts.
  destruct there.
  2: { destruct H as [_ ->]. done. }
  destruct H as (walked & d & entries & st & ops & name & facts' & _ & _ & _
                 & Hloop & _ & Hname & Hfin & ->).
  simpl in Hfacts. injection Hfacts as ->.
  apply run_loop_spec in Hloop as (ops' & _ & _ & Hself & _).
  rewrite Hself in Hname. simpl in Hname.
  destruct (role_source_dir_attrs _ _ _ Hrole) as [_ Hn].
  rewrite Hn, (set_args_name _ _ _ Hset) in Hname.
  2: { eapply role_source_dir_assigned; [exact Hrole|by eexists]. }
  injection Hname as <-. unfold finalize in Hfin.
  destruct (truthy (arg_name task)); [|injection Hfin as <-; by eexists].
  destruct (hashable (arg_name task)); [|done].
  injection Hfin as <-. split; [done|by eexists].
Qed.

Lemma merge_files_nothing (ps : list string) (acc : gmap string PyValue) :
  Forall (fun p => exists show, loaded p = Ok (PyNone, show)) ps ->
  merge_files ps acc = acc.
Proof.
  intros Hall. revert acc.
  induction Hall as [|p ps [show Hp] _ IH]; intros acc; simpl; [done|].
  rewrite IH. unfold file_dict. rewrite Hp. apply (left_id_L ∅ (∪)).
Qed.

(** X16.  Files that hold nothing (the loader gives [None] for them)
    are taken as empty mappings: an invocation that reads only such
    files returns no failure and an empty merged mapping. *)
Theorem X16_files_without_content (task : Task) (result : Result)
    (log : list FsOp) :
  run task [] = (Ok result, log) ->
  is_Some (ansible_facts result) ->
  Forall (fun p => exists show, loaded p = Ok (PyNone, show)) (reads log) ->
  failed result = None /\ message result = None /\
  (ansible_facts result = Some (Flat ∅) \/
   exists name, ansible_facts result = Some (Scoped name ∅)).
Proof.
  intros Hrun Hfacts Hall.
  destruct (run_exists_inv task result log Hrun Hfacts)
    as (dir & walked & merged & facts & _ & _ & _ & Hf & Hshape & _ & Hcases).
  destruct Hcases as [(Hnf & Hm & _ & ->)|(l & p & Hps & _ & Hp & _)].
  - rewrite merge_files_nothing in Hshape by done.
    split_and!; [done|done|]. rewrite Hf.
    destruct Hshape as [->|[name ->]]; [by left|right; by exists name].
  - rewrite Hps in Hall. apply Forall_app in Hall as [_ Hall].
    apply Forall_singleton in Hall as [show Hl].
    unfold file_is_mapping in Hp. by rewrite Hl in Hp.
Qed.

(** X18.  When the walk of the source directory is empty (the path
    is a file, or a directory that cannot be listed), [run] returns
    no failure and an empty merged mapping whatever [depth] holds:
    the depth is only looked at for a directory of the walk. *)
Theorem X18_empty_walk (task : Task) (self : ActionModule) (dir : PyValue)
    (log : list FsOp) :
  _set_args task init_self = Ok (None, self) ->
  resolved_dir task self = Ok dir ->
  fs_exists dir = Ok true ->
  fs_walk dir = Ok [] ->
  hashable (arg_name task) = true ->
  run task log =
    (Ok {| failed := None; message := None;
           ansible_facts :=
             Some (if truthy (arg_name task)
                   then Scoped (arg_name task) ∅
                   else Flat ∅);
           _ansible_no_log := Some true |},
     log ++ [OpExists dir; OpWalk dir]).
Proof.
  intros Hset Hdir Hex Hwalk Hname.
  destruct (set_args_ok_inv _ _ _ Hset)
    as (_ & _ & Hshow & Hn & _ & Hdep & _).
  unfold resolved_dir in Hdir.
  destruct (role_source_dir task self) as [self'|e] eqn:Hrole; [|done].
  simpl in Hdir.
  destruct (source_dir self') as [dir'|] eqn:Hsd; [|done].
  injection Hdir as ->.
  destruct (role_source_dir_attrs _ _ _ Hrole) as [Hdep' Hn'].
  pose proof (role_source_dir_show_content _ _ _ Hrole) as Hshow'.
  unfold run. rewrite Hset, bind_lift_ok, Hrole, bind_lift_ok, Hsd.
  simpl attr. rewrite bind_lift_ok, Hex, bind_access_ok.
  unfold _traverse_dir_depth. rewrite Hsd, Hdep', Hdep. simpl attr.
  rewrite !bind_assoc, bind_lift_ok, bind_assoc, Hwalk, bind_access_ok.
  rewrite bind_assoc, bind_lift_ok.
  change (traverse_loop _ 0 (sort_by _ [])) with (Ok (@nil (string * list string))).
  rewrite bind_lift_ok.
  cbn [run_loop]. rewrite bind_ret. cbn [rs_self rs_results rs_result].
  rewrite Hn', Hn. simpl attr. rewrite bind_lift_ok.
  unfold finalize. rewrite Hname.
  rewrite Hshow', Hshow. unfold ret, set_facts. simpl.
  rewrite <- app_assoc. simpl.
  by destruct (truthy (arg_name task)).
Qed.

Lemma read_seq_loaded (ps : list string) :
  forall st : LoadState,
    read_seq ps st ->
    Forall (fun p => exists v show, loaded p = Ok (v, show)) ps.
Proof.
  induction ps as [|p ps IH]; intros st; [constructor|].
  intros (_ & Hp & Hseq). constructor; [done|by eapply IH].
Qed.

Lemma run_loop_loaded (task : Task) (entries : list (string * list string)) :
  forall (st st' : RunState) (log log' : list FsOp),
    run_loop task entries st log = (Ok st', log') ->
    exists ops,
      log' = log ++ ops /\
      Forall (fun p => exists v show, loaded p = Ok (v, show)) (reads ops).
Proof.
  induction entries as [|[root files] entries IH]; intros st st' log log'.
  { simpl. unfold ret. intros [= <- <-]. exists [].
    by rewrite app_nil_r. }
  cbn [run_loop]. unfold bind at 1. unfold _load_files.
  destruct (load_loop task root files _ log) as [[ls|e] log1] eqn:E; [|done].
  apply load_loop_replay in E as (ops1 & -> & Hseq%read_seq_loaded & _ & _).
  destruct (ls_failed ls); cbn [negb].
  - unfold ret. intros [= <- <-]. by exists ops1.
  - intros (ops2 & -> & Hall)%IH. exists (ops1 ++ ops2).
    rewrite reads_app, app_assoc. split; [done|by apply Forall_app].
Qed.

(** X19.  An error of the loader is never turned into a result: when
    [run] returns a result, failed or not, the loader has returned a
    value for every file that was read.  A file that cannot be
    retrieved or parsed makes the invocation raise. *)
Theorem X19_loader_errors_propagate (task : Task) (result : Result)
    (log : list FsOp) :
  run task [] = (Ok result, log) ->
  Forall (fun p => exists v show, loaded p = Ok (v, show)) (reads log).
Proof.
  intros (r & self & self' & dir & there & _ & _ & _ & _ & H)%run_ok_inv.
  destruct there.
  2: { destruct H as [-> _]. constructor. }
  destruct H as (walked & d & entries & st & ops & name & facts & _ & _ & _
                 & Hloop & -> & _).
  by apply run_loop_loaded in Hloop as (ops' & -> & Hall).
Qed.

(** X17.  The outcome of [_ignore_file] is decided by the first entry
    that does not pass: [False] means that every entry compiles and
    none matches; [True] means that the first entry that does not
    pass matches; an error means that it does not compile, and the
    error is an [AnsibleError] that names it.  The entries after it
    play no part. *)
Theorem X17_first_entry_decides (filename : string)
    (patterns : list PyValue) :
  match ignore_loop filename patterns with
  | Ok false => Forall (passes filename) patterns
  | Ok true =>
      exists l q r,
        patterns = l ++ q :: r /\ Forall (passes filename) l /\
        re_valid (anchored q) = true /\
        re_search (anchored q) filename = true
  | Raise e =>
      exists l q r,
        patterns = l ++ q :: r /\ Forall (passes filename) l /\
        re_valid (anchored q) = false /\
        e = AnsibleError ("Invalid regular expression: " +:+ py_format q)
  end.
Proof.
  induction patterns as [|q ps IH]; simpl; [constructor|].
  destruct (re_valid (py_format q +:+ "$")) eqn:Hv.
  2: { exists [], q, ps. by split_and!. }
  destruct (re_search (py_format q +:+ "$") filename) eqn:Hs.
  { exists [], q, ps. by split_and!. }
  assert (Hq : passes filename q) by done.
  destruct (ignore_loop filename ps) as [[|]|e].
  - destruct IH as (l & q' & r & -> & Hl & Hv' & Hs').
    exists (q :: l), q', r. split_and!; [done|by constructor|done|done].
  - by constructor.
  - destruct IH as (l & q' & r & -> & Hl & Hv' & ->).
    exists (q :: l), q', r. split_and!; [done|by constructor|done|done].
Qed.

End facts_shape.

Section order_facts.

Local Arguments path_join : simpl never.

(** X15.  The order in which the files of a walk are gone through:
    the (directory, file name) pairs are in lexicographic order when
    the walk lists each directory once, they are the files of the
    walk, none lost and none twice, and the path of each is the
    directory joined with the name. *)
Theorem X15_traversal_order
    (walked : list (string * list string * list string)) :
  NoDup ((fun e => e.1.1) <$> walked) ->
  StronglySorted pair_le (traversal_pairs walked) /\
  traversal_pairs walked ≡ₚ
    flat_map (fun e => (fun f => (e.1.1, f)) <$> e.2) walked /\
  traversal walked =
    (fun rf => path_join rf.1 [rf.2]) <$> traversal_pairs walked.
Proof.
  intros Hnd. split_and!.
  - by apply traversal_pairs_sorted.
  - unfold traversal_pairs. rewrite flat_map_sorted_files.
    apply Permutation_flat_map, sort_by_Permutation.
  - apply traversal_paths.
Qed.

End order_facts.

Lemma X14_results_under_name_witness :
  (run (host := Fixture.host) Cases.task_named [] =
     (Ok Cases.named_result, Fixture.plain_log) /\
   ansible_facts Cases.named_result =
     Some (Scoped (PyStr "app") (<["x" := PyInt 2]> {["y" := PyDict ∅]}))) /\
  hashable (PyStr "app") = true /\
  exists merged,
    Scoped (PyStr "app") (<["x" := PyInt 2]> {["y" := PyDict ∅]})
      = Scoped (PyStr "app") merged.
Proof.
  split; [split; [vm_compute; reflexivity|reflexivity]|].
  apply (X14_results_under_name (host := Fixture.host) Cases.task_named
           Cases.named_result Fixture.plain_log
           (Scoped (PyStr "app") (<["x" := PyInt 2]> {["y" := PyDict ∅]})));
    [vm_compute; reflexivity|reflexivity].
Defined.

Lemma X16_files_without_content_witness :
  (run (host := Fixture.fx_host Cases.empties) Fixture.task_plain [] =
     (Ok Cases.empties_result, Cases.empties_log) /\
   is_Some (ansible_facts Cases.empties_result) /\
   Forall (fun p => exists show,
             loaded (host := Fixture.fx_host Cases.empties) p
               = Ok (PyNone, show))
          (reads Cases.empties_log)) /\
  failed Cases.empties_result = None /\
  message Cases.empties_result = None /\
  (ansible_facts Cases.empties_result = Some (Flat ∅) \/
   exists name, ansible_facts Cases.empties_result = Some (Scoped name ∅)).
Proof.
  assert (Hall : Forall (fun p => exists show,
                           loaded (host := Fixture.fx_host Cases.empties) p
                             = Ok (PyNone, show))
                        (reads Cases.empties_log)).
  { repeat constructor; eexists; vm_compute; reflexivity. }
  split; [split_and!; [vm_compute; reflexivity|by eexists|exact Hall]|].
  apply (X16_files_without_content (host := Fixture.fx_host Cases.empties)
           Fixture.task_plain Cases.empties_result Cases.empties_log);
    [vm_compute; reflexivity|by eexists|exact Hall].
Defined.

Lemma X18_empty_walk_witness :
  (_set_args (host := Fixture.host) Cases.task_on_file init_self =
     Ok (None, self_of (host := Fixture.host) Cases.task_on_file) /\
   resolved_dir (host := Fixture.host) Cases.task_on_file
     (self_of (host := Fixture.host) Cases.task_on_file)
     = Ok (PyStr "vars/a.yml") /\
   fs_exists (Host := Fixture.host) (PyStr "vars/a.yml") = Ok true /\
   fs_walk (Host := Fixture.host) (PyStr "vars/a.yml") = Ok [] /\
   hashable (args_get "name" PyNone (args Cases.task_on_file)) = true /\
   depth (self_of (host := Fixture.host) Cases.task_on_file)
     = Some (PyStr "deep")) /\
  run (host := Fixture.host) Cases.task_on_file [] =
    (Ok {| failed := None; message := None;
           ansible_facts := Some (Flat ∅);
           _ansible_no_log := Some true |},
     [OpExists (PyStr "vars/a.yml"); OpWalk (PyStr "vars/a.yml")]).
Proof.
  split; [split_and!; vm_compute; reflexivity|].
  apply (X18_empty_walk (host := Fixture.host) Cases.task_on_file
           (self_of (host := Fixture.host) Cases.task_on_file)
           (PyStr "vars/a.yml") []);
    vm_compute; reflexivity.
Defined.

Lemma X19_loader_errors_propagate_witness :
  run (host := Fixture.host) Fixture.task_plain [] =
    (Ok Fixture.plain_result, Fixture.plain_log) /\
  Forall (fun p => exists v show,
            loaded (host := Fixture.host) p = Ok (v, show))
         (reads Fixture.plain_log).
Proof.
  split; [vm_compute; reflexivity|].
  apply (X19_loader_errors_propagate (host := Fixture.host)
           Fixture.task_plain Fixture.plain_result Fixture.plain_log).
  vm_compute; reflexivity.
Defined.

Lemma X15_traversal_order_witness :
  NoDup ((fun e => e.1.1) <$> Fixture.fx_walk Fixture.tree) /\
  StronglySorted pair_le (traversal_pairs (Fixture.fx_walk Fixture.tree)) /\
  traversal_pairs (Fixture.fx_walk Fixture.tree) ≡ₚ
    flat_map (fun e => (fun f => (e.1.1, f)) <$> e.2)
      (Fixture.fx_walk Fixture.tree) /\
  traversal (Fixture.fx_walk Fixture.tree) =
    (fun rf => path_join rf.1 [rf.2])
      <$> traversal_pairs (Fixture.fx_walk Fixture.tree).
Proof.
  assert (Hnd : NoDup ((fun e => e.1.1) <$> Fixture.fx_walk Fixture.tree)).
  { apply (bool_decide_unpack _). vm_compute. exact I. }
  split; [exact Hnd|].
  apply (X15_traversal_order (Fixture.fx_walk Fixture.tree)). exact Hnd.
Defined.
